(** * EmailListChecker Go client: request dispatch and error classification

    A shallow embedding of [client.go] and [errors.go].  Go's [int] is taken
    to be 64 bits wide.  The pieces of the Go standard library the client
    calls are modelled next to it, each in a module named after its package:
    [Strconv] ([strconv.Atoi], [strconv.FormatBool], the [%d] verb),
    [Strings] ([strings.TrimRight]), [Filepath] ([filepath.Base]),
    [Json] ([encoding/json] on already tokenised documents) and
    [Http] ([net/http] headers, requests and responses). *)

From Stdlib Require Import ZArith String Ascii List Lia DecimalString DecimalPos.
From stdpp Require Import gmap strings list.

Open Scope string_scope.
Open Scope Z_scope.

(* ===================================================================== *)
(** ** strconv and fmt *)
(* ===================================================================== *)

Module Strconv.

Definition minInt : Z := - 2 ^ 63.
Definition maxInt : Z := 2 ^ 63 - 1.

(** [ch -= '0'; if ch > 9 { syntax error }] *)
Definition digit (ch : ascii) : option Z :=
  let n := Z.of_N (N_of_ascii ch) in
  if (48 <=? n) && (n <=? 57) then Some (n - 48) else None.

(** The loop [n = n*10 + int(ch)] of [Atoi], on unbounded integers. *)
Fixpoint digits (s : string) (n : Z) : option Z :=
  match s with
  | EmptyString => Some n
  | String ch s' =>
      match digit ch with
      | Some d => digits s' (n * 10 + d)
      | None => None
      end
  end.

(** [strconv.Atoi]: an optional sign, then one or more decimal digits; a
    value outside the [int] range is a range error.  [None] is a non-nil
    error.  The fast path (fewer than 19 bytes) and the [ParseInt(s, 10, 0)]
    path of the Go function accept the same strings with the same values,
    so one definition on [Z] with the range test covers both. *)
Definition Atoi (s : string) : option Z :=
  match s with
  | EmptyString => None
  | String s0 rest =>
      let neg := Ascii.eqb s0 "-" in
      let body := if neg || Ascii.eqb s0 "+" then rest else s in
      match body with
      | EmptyString => None
      | _ =>
          match digits body 0 with
          | None => None
          | Some n =>
              let v := if neg then - n else n in
              if (minInt <=? v) && (v <=? maxInt) then Some v else None
          end
      end
  end.

(** The [%d] verb of [fmt.Sprintf] on an [int]. *)
Definition FormatInt (n : Z) : string := NilZero.string_of_int (Z.to_int n).

Definition FormatBool (b : bool) : string := if b then "true" else "false".

(** The decimal digits at the head of [s]: their value on top of [acc], how
    many they are on top of [n], and what follows them. *)
Fixpoint leadingDigits (s : string) (acc n : Z) : Z * Z * string :=
  match s with
  | EmptyString => (acc, n, EmptyString)
  | String ch s' =>
      match digit ch with
      | Some d => leadingDigits s' (acc * 10 + d) (n + 1)
      | None => (acc, n, s)
      end
  end.

(** A decimal literal, sign, digits, an optional fraction and an optional
    exponent, read as [(m, e)]: its magnitude is [m * 10 ^ e]. *)
Definition decimal (lit : string) : Z * Z :=
  let unsigned :=
    match lit with
    | String c r => if (Ascii.eqb c "-" || Ascii.eqb c "+")%bool then r else lit
    | EmptyString => lit
    end in
  let '(whole, _, r1) := leadingDigits unsigned 0 0 in
  let '(mantissa, places, r2) :=
    match r1 with
    | String c r => if Ascii.eqb c "." then leadingDigits r whole 0 else (whole, 0, r1)
    | EmptyString => (whole, 0, r1)
    end in
  let exponent :=
    match r2 with
    | String c r =>
        if (Ascii.eqb c "e" || Ascii.eqb c "E")%bool then
          match r with
          | String sign r' =>
              if Ascii.eqb sign "-" then - (leadingDigits r' 0 0).1.1
              else if Ascii.eqb sign "+" then (leadingDigits r' 0 0).1.1
              else (leadingDigits r 0 0).1.1
          | EmptyString => 0
          end
        else 0
    | EmptyString => 0
    end in
  (mantissa, exponent - places).

(** The least magnitude that rounds to infinity in [float64]: halfway
    between the largest finite [float64] and [2 ^ 1024]. *)
Definition float64Overflow : Z := 2 ^ 1024 - 2 ^ 970.

(** [strconv.ParseFloat(lit, 64)] returns a range error: the literal rounds,
    to nearest and ties to even, to an infinity.  A literal too small to be
    represented rounds to zero without an error. *)
Definition ParseFloatRange (lit : string) : bool :=
  let '(m, e) := decimal lit in
  if 0 <=? e then float64Overflow <=? m * 10 ^ e
  else float64Overflow * 10 ^ (- e) <=? m.

End Strconv.

(* ===================================================================== *)
(** ** strings and path/filepath *)
(* ===================================================================== *)

Module Strings.

Fixpoint ContainsByte (cutset : string) (c : ascii) : bool :=
  match cutset with
  | EmptyString => false
  | String d cutset' => Ascii.eqb c d || ContainsByte cutset' c
  end.

(** [strings.TrimRight(s, cutset)] for a cutset of ASCII bytes: the longest
    suffix made of cutset bytes is removed. *)
Fixpoint TrimRight (s cutset : string) : string :=
  match s with
  | EmptyString => EmptyString
  | String c s' =>
      match TrimRight s' cutset with
      | EmptyString => if ContainsByte cutset c then EmptyString else String c EmptyString
      | t => String c t
      end
  end.

Fixpoint HasSuffixByte (s : string) (c : ascii) : bool :=
  match s with
  | EmptyString => false
  | String d EmptyString => Ascii.eqb d c
  | String _ s' => HasSuffixByte s' c
  end.

Fixpoint Repeat (c : ascii) (n : nat) : string :=
  match n with
  | O => EmptyString
  | S n' => String c (Repeat c n')
  end.

End Strings.

Module Filepath.

(** The text after the last separator of a path without trailing
    separators; [acc] is the element being read. *)
Fixpoint lastElement (s acc : string) : string :=
  match s with
  | EmptyString => acc
  | String c s' =>
      if Ascii.eqb c "/" then lastElement s' EmptyString
      else lastElement s' (acc +:+ String c EmptyString)
  end.

(** [filepath.Base] on a Unix path. *)
Definition Base (path : string) : string :=
  match path with
  | EmptyString => "."
  | _ =>
      match Strings.TrimRight path "/" with
      | EmptyString => "/"
      | p => lastElement p EmptyString
      end
  end.

End Filepath.

(* ===================================================================== *)
(** ** encoding/json *)
(* ===================================================================== *)

Module Json.

(** A JSON document after tokenising.  Object members are kept in document
    order, duplicates included, because the decoder visits them in that
    order.  The same type stands for a decoded [interface{}]: [JNull] is the
    nil interface.  Number literals are assumed to lie in the [float64]
    range, so that decoding one into an [interface{}] cannot fail. *)
#[warnings="-register-all"]
Inductive value :=
| JNull
| JBool (b : bool)
| JNumber (lit : string)
| JString (s : string)
| JArray (items : list value)
| JObject (members : list (string * value)).

(** The bytes of a response body, up to JSON syntax: no bytes at all, bytes
    that are not a JSON text, or the bytes of the document [v]. *)
Inductive body :=
| Empty
| Invalid
| Doc (v : value).

Definition len_is_zero (b : body) : bool :=
  match b with Empty => true | _ => false end.

Inductive error := SyntaxError | UnmarshalTypeError.

(** A Go type that [json.Unmarshal] can fill: its zero value, and how a
    document is stored into a current value of the type.  The boolean is
    true when some part of the document did not fit the type; the decoder
    goes on past such a part and reports an [UnmarshalTypeError] at the
    end. *)
Class Unmarshaler (T : Type) := {
  zero : T;
  decode : value -> T -> T * bool
}.

(** [json.Unmarshal(data, &v)].  The input is checked for validity before
    anything is stored. *)
Definition Unmarshal {T} `{Unmarshaler T} (data : body) (v : T) : T * option error :=
  match data with
  | Doc d =>
      let '(v', bad) := decode d v in
      (v', if bad then Some UnmarshalTypeError else None)
  | Empty | Invalid => (v, Some SyntaxError)
  end.

(** *** Matching an object key against a struct field name *)

Definition byte (n : N) (c : ascii) : bool := N.eqb (N_of_ascii c) n.

Definition upper (c : ascii) : ascii :=
  let n := N_of_ascii c in
  if (N.leb 97 n && N.leb n 122)%bool then ascii_of_N (n - 32) else c.

(** [foldName], as far as it matters for an ASCII field name: ASCII letters
    go to upper case, and the two non-ASCII runes whose fold orbit contains
    an ASCII letter, U+017F (long s) and U+212A (Kelvin sign), go to [S] and
    [K].  Other bytes stay as they are. *)
Fixpoint foldName (s : string) : string :=
  match s with
  | EmptyString => EmptyString
  | String c1 s1 =>
      match s1 with
      | EmptyString => String (upper c1) EmptyString
      | String c2 s2 =>
          if (byte 197 c1 && byte 191 c2)%bool then String "S" (foldName s2)
          else
            match s2 with
            | String c3 s3 =>
                if (byte 226 c1 && byte 132 c2 && byte 170 c3)%bool
                then String "K" (foldName s3)
                else String (upper c1) (foldName s1)
            | EmptyString => String (upper c1) (foldName s1)
            end
      end
  end.

(** A key selects the field tagged [name] when it is that name exactly or
    equals it after folding. *)
Definition matchesField (name key : string) : bool :=
  (String.eqb key name || String.eqb (foldName key) (foldName name))%bool.

(** *** The targets the client decodes into *)

(** [interface{}]: any document, stored as it is. *)
#[export] Instance unmarshal_interface : Unmarshaler value :=
  {| zero := JNull; decode d _ := (d, false) |}.

(** [map[string]interface{}]; [None] is the nil map.  A later duplicate key
    overwrites an earlier one, and an existing map is added to. *)
#[export] Instance unmarshal_map : Unmarshaler (option (gmap string value)) :=
  {| zero := None;
     decode d m :=
       match d with
       | JNull => (None, false)
       | JObject members =>
           (Some (foldl (fun acc kv => <[kv.1 := kv.2]> acc) (default ∅ m) members), false)
       | _ => (m, true)
       end |}.

(** [[]interface{}]; [None] is the nil slice. *)
#[export] Instance unmarshal_slice : Unmarshaler (option (list value)) :=
  {| zero := None;
     decode d l :=
       match d with
       | JNull => (None, false)
       | JArray items => (Some items, false)
       | _ => (l, true)
       end |}.

#[export] Instance unmarshal_bool : Unmarshaler bool :=
  {| zero := false;
     decode d b :=
       match d with
       | JBool x => (x, false)
       | JNull => (b, false)
       | _ => (b, true)
       end |}.

(** A pointer [*T]; [None] is nil.  JSON null sets it to nil; any other
    document is stored into the value pointed to, which is allocated as the
    zero value first when the pointer is nil. *)
Definition decode_ptr {T} `{Unmarshaler T} (d : value) (p : option T) : option T * bool :=
  match d with
  | JNull => (None, false)
  | _ => let '(t, bad) := decode d (default zero p) in (Some t, bad)
  end.

#[export] Instance unmarshal_ptr {T} `{Unmarshaler T} : Unmarshaler (option T) | 20 :=
  {| zero := None; decode := decode_ptr |}.

(** *** Structs *)

(** A struct type is described by its tagged fields: the JSON name of each
    and how a document is stored into that field of a struct value. *)
Definition field (S : Type) : Type := string * (value -> S -> S * bool).

(** The field a key selects: the one with exactly that name, else the first
    one with the same folded name. *)
Definition findField {S} (fields : list (field S)) (key : string) : option (field S) :=
  match List.find (fun f => String.eqb key f.1) fields with
  | Some f => Some f
  | None => List.find (fun f => String.eqb (foldName key) (foldName f.1)) fields
  end.

(** The decoder's step at one member of an object: the member is stored
    into the field its key selects, and skipped when it selects none. *)
Definition storeMember {S} (fields : list (field S)) (acc : S * bool)
    (member : string * value) : S * bool :=
  match findField fields member.1 with
  | Some f => let '(s, bad) := f.2 member.2 acc.1 in (s, (acc.2 || bad)%bool)
  | None => acc
  end.

(** An object is stored member by member, in document order; null leaves
    the struct as it is; any other document does not fit. *)
Definition decodeStruct {S} (fields : list (field S)) (d : value) (s : S) : S * bool :=
  match d with
  | JNull => (s, false)
  | JObject members => foldl (storeMember fields) (s, false) members
  | _ => (s, true)
  end.

End Json.
Import Json.

(* ===================================================================== *)
(** ** net/http *)
(* ===================================================================== *)

Module Http.

(** [http.Header], keyed by canonical header names.  Every name the client
    uses is already in canonical form. *)
Abbreviation Header := (gmap string (list string)).

Definition Set_ (key val : string) (h : Header) : Header := <[key := [val]]> h.

Definition Get (key : string) (h : Header) : string :=
  match h !! key with
  | Some (v :: _) => v
  | _ => ""
  end.

(** A part written by [multipart.Writer]. *)
Inductive Part :=
| FormFile (fieldname filename content : string)
| Field (fieldname val : string).

Inductive Payload :=
| JSONPayload (v : Json.value)
| MultipartPayload (boundary : string) (parts : list Part).

Record Request := {
  Method : string;
  URL : string;
  ReqHeader : Header;
  ReqBody : option Payload
}.

(** A response as [Do] hands it over: [Body] is what [io.ReadAll] makes of
    the body stream, the bytes or the text of a read error. *)
Record Response := {
  StatusCode : Z;
  RespHeader : Header;
  Body : Json.body + string
}.

(** [http.Client]; the duration is in nanoseconds. *)
Record Client := { Timeout : Z }.

End Http.

(* ===================================================================== *)
(** ** errors.go *)
(* ===================================================================== *)

(** The base error record that the five API error types embed. *)
Record Error := {
  Message : string;
  StatusCode : Z;
  ResponseData : option (gmap string value)
}.

(** The values of Go's [error] interface that the client returns: the five
    API error types, errors wrapped by [fmt.Errorf("<prefix>: %w", cause)],
    the errors of [json.Unmarshal], and errors of [os], [io], [net/url] and
    [net/http], known by their text. *)
Inductive error :=
| AuthenticationError (e : Error)
| InsufficientCreditsError (e : Error)
| RateLimitError (e : Error) (RetryAfter : Z)
| ValidationError (e : Error)
| APIError (e : Error)
| Errorf (prefix : string) (cause : error)
| JsonError (e : Json.error)
| External (text : string).

Definition NewAuthenticationError (message : string) (statusCode : Z)
    (responseData : option (gmap string value)) : error :=
  AuthenticationError
    {| Message := message; StatusCode := statusCode; ResponseData := responseData |}.

Definition NewInsufficientCreditsError (message : string) (statusCode : Z)
    (responseData : option (gmap string value)) : error :=
  InsufficientCreditsError
    {| Message := message; StatusCode := statusCode; ResponseData := responseData |}.

Definition NewRateLimitError (retryAfter : Z) (statusCode : Z)
    (responseData : option (gmap string value)) : error :=
  RateLimitError
    {| Message := "Rate limit exceeded. Retry after " +:+ Strconv.FormatInt retryAfter +:+ " seconds";
       StatusCode := statusCode;
       ResponseData := responseData |}
    retryAfter.

Definition NewValidationError (message : string) (statusCode : Z)
    (responseData : option (gmap string value)) : error :=
  ValidationError
    {| Message := message; StatusCode := statusCode; ResponseData := responseData |}.

Definition NewAPIError (message : string) (statusCode : Z)
    (responseData : option (gmap string value)) : error :=
  APIError
    {| Message := message; StatusCode := statusCode; ResponseData := responseData |}.

(** [func (e *Error) Error() string] *)
Definition Error_ (e : Error) : string := Message e.

(** The base record of an API error, and the variant it belongs to. *)
Inductive Variant := Authentication | InsufficientCredits | RateLimit | Validation | Generic.

Definition variant (e : error) : option Variant :=
  match e with
  | AuthenticationError _ => Some Authentication
  | InsufficientCreditsError _ => Some InsufficientCredits
  | RateLimitError _ _ => Some RateLimit
  | ValidationError _ => Some Validation
  | APIError _ => Some Generic
  | _ => None
  end.

Definition base (e : error) : option Error :=
  match e with
  | AuthenticationError b | InsufficientCreditsError b | RateLimitError b _
  | ValidationError b | APIError b => Some b
  | _ => None
  end.

(** The classification table of the specification. *)
Definition table (status : Z) : Variant :=
  if status =? 401 then Authentication
  else if status =? 402 then InsufficientCredits
  else if status =? 422 then Validation
  else if status =? 429 then RateLimit
  else Generic.

(* ===================================================================== *)
(** ** client.go *)
(* ===================================================================== *)

Definition DefaultBaseURL : string := "https://platform.emaillistchecker.io/api/v1".

(** [30 * time.Second], in nanoseconds. *)
Definition DefaultTimeout : Z := 30 * 1000000000.

Record Client := {
  apiKey : string;
  baseURL : string;
  httpClient : Http.Client
}.

Definition NewClient (apiKey : string) : Client :=
  {| apiKey := apiKey;
     baseURL := DefaultBaseURL;
     httpClient := {| Http.Timeout := DefaultTimeout |} |}.

Definition NewClientWithConfig (apiKey baseURL : string) (timeout : Z) : Client :=
  {| apiKey := apiKey;
     baseURL := Strings.TrimRight baseURL "/";
     httpClient := {| Http.Timeout := timeout |} |}.

(** *** Request bodies

    [json.Marshal] cannot fail on the request types of this client (strings,
    integers, booleans, a nil-able integer pointer, a string slice), so each
    request type comes with the document it marshals to: struct fields in
    declaration order, [omitempty] fields left out when empty, map keys
    sorted. *)

Record VerifyRequest := {
  Email : string;
  Timeout : option Z;
  SMTPCheck : bool
}.

Definition marshalVerifyRequest (r : VerifyRequest) : value :=
  JObject ([("email", JString (Email r))]
           ++ match Timeout r with
              | Some t => [("timeout", JNumber (Strconv.FormatInt t))]
              | None => []
              end
           ++ [("smtp_check", JBool (SMTPCheck r))]).

(** [Emails] is a slice: [None] is nil and marshals to null. *)
Record BatchRequest := {
  Emails : option (list string);
  Name : string;
  CallbackURL : string;
  AutoStart : bool
}.

Definition marshalBatchRequest (r : BatchRequest) : value :=
  JObject ([("emails", match Emails r with
                       | Some l => JArray (JString <$> l)
                       | None => JNull
                       end)]
           ++ (if String.eqb (Name r) "" then [] else [("name", JString (Name r))])
           ++ (if String.eqb (CallbackURL r) "" then [] else [("callback_url", JString (CallbackURL r))])
           ++ [("auto_start", JBool (AutoStart r))]).

Record FindEmailRequest := {
  FirstName : string;
  LastName : string;
  Domain : string
}.

Definition marshalFindEmailRequest (r : FindEmailRequest) : value :=
  JObject [("first_name", JString (FirstName r));
           ("last_name", JString (LastName r));
           ("domain", JString (Domain r))].

(** *** Result envelopes

    [struct { Data X `json:"data"` }], the anonymous type every operation
    decodes into first. *)
Record envelope (X : Type) := Envelope { Data : X }.
Arguments Envelope {X} _.
Arguments Data {X} _.

Definition envelope_fields {X} `{Unmarshaler X} : list (field (envelope X)) :=
  [ ("data", fun d e => let '(x, bad) := decode d (Data e) in (Envelope x, bad)) ].

#[export] Instance unmarshal_envelope {X} `{Unmarshaler X} : Unmarshaler (envelope X) :=
  {| zero := Envelope zero; decode := decodeStruct envelope_fields |}.

(** [struct { Success bool `json:"success"`; Data *BatchResponse `json:"data"` }]
    of the upload operation. *)
Record uploadEnvelope (X : Type) := UploadEnvelope { Success : bool; UploadData : option X }.
Arguments UploadEnvelope {X} _ _.
Arguments Success {X} _.
Arguments UploadData {X} _.

Definition uploadEnvelope_fields {X} `{Unmarshaler X} : list (field (uploadEnvelope X)) :=
  [ ("success", fun d e =>
       let '(x, bad) := decode d (Success e) in (UploadEnvelope x (UploadData e), bad));
    ("data", fun d e =>
       let '(x, bad) := decode d (UploadData e) in (UploadEnvelope (Success e) x, bad)) ].

#[export] Instance unmarshal_uploadEnvelope {X} `{Unmarshaler X} :
    Unmarshaler (uploadEnvelope X) :=
  {| zero := UploadEnvelope false None; decode := decodeStruct uploadEnvelope_fields |}.

(** *** Response structs

    The fields of a response struct are named [<Struct>_<Field>].  Each struct
    comes with the decoding that [encoding/json] derives from its field
    tags. *)

Definition storeString (d : value) (old : string) : string * bool :=
  match d with
  | JString x => (x, false)
  | JNull => (old, false)
  | _ => (old, true)
  end.

(** An [int] field takes a number literal that [strconv.ParseInt] accepts;
    on a JSON number literal, which has no plus sign, that is [Atoi]. *)
Definition storeInt (d : value) (old : Z) : Z * bool :=
  match d with
  | JNumber lit =>
      match Strconv.Atoi lit with
      | Some n => (n, false)
      | None => (old, true)
      end
  | JNull => (old, false)
  | _ => (old, true)
  end.

(** A [float64] field is kept as the number literal it is parsed from; no
    arithmetic is done on it.  A literal outside the [float64] range does not
    fit and leaves the field as it is. *)
Definition storeFloat (d : value) (old : string) : string * bool :=
  match d with
  | JNumber lit => if Strconv.ParseFloatRange lit then (old, true) else (lit, false)
  | JNull => (old, false)
  | _ => (old, true)
  end.

(** A [[]string]: its elements and, behind them, what its backing array still
    holds from earlier, longer contents.  The decoder stores an array into
    the slice it finds: element [i] of the array goes into slot [i] of the
    backing array, so a null element keeps what the slot held. *)
Record stringSlice := { elements : list string; behind : list string }.

(** The elements of an array stored one by one into the slots of [backing],
    with zero strings where [backing] ends: the new elements, the slots left
    untouched, and whether an element did not fit. *)
Fixpoint storeElements (items : list value) (backing : list string)
    : list string * list string * bool :=
  match items with
  | [] => ([], backing, false)
  | d :: items' =>
      let '(x, bad) := storeString d (hd "" backing) in
      let '(xs, rest, bads) := storeElements items' (tl backing) in
      (x :: xs, rest, (bad || bads)%bool)
  end.

(** A [[]string] field; [None] is the nil slice.  Null resets it to nil, an
    empty array to a fresh empty slice. *)
Definition storeStrings (d : value) (old : option stringSlice) : option stringSlice * bool :=
  match d with
  | JArray [] => (Some {| elements := []; behind := [] |}, false)
  | JArray items =>
      let backing :=
        match old with
        | Some s => (elements s ++ behind s)%list
        | None => []
        end in
      let '(xs, rest, bad) := storeElements items backing in
      (Some {| elements := xs; behind := rest |}, bad)
  | JNull => (None, false)
  | _ => (old, true)
  end.

(** [VerifyResponse] *)
Record VerifyResponse := {
  VerifyResponse_Email : string;
  VerifyResponse_Result : string;
  VerifyResponse_Reason : string;
  VerifyResponse_Disposable : bool;
  VerifyResponse_Role : bool;
  VerifyResponse_Free : bool;
  VerifyResponse_Score : string;
  VerifyResponse_SMTPProvider : string;
  VerifyResponse_MXRecords : option stringSlice;
  VerifyResponse_Domain : string;
  VerifyResponse_SpamTrap : bool;
  VerifyResponse_MXFound : bool
}.

Definition VerifyResponse_fields : list (field VerifyResponse) :=
  [ ("email", fun d r =>
       let '(x, bad) := storeString d (VerifyResponse_Email r) in
       ({| VerifyResponse_Email := x; VerifyResponse_Result := VerifyResponse_Result r;
        VerifyResponse_Reason := VerifyResponse_Reason r; VerifyResponse_Disposable :=
        VerifyResponse_Disposable r; VerifyResponse_Role := VerifyResponse_Role r;
        VerifyResponse_Free := VerifyResponse_Free r; VerifyResponse_Score :=
        VerifyResponse_Score r; VerifyResponse_SMTPProvider := VerifyResponse_SMTPProvider
        r; VerifyResponse_MXRecords := VerifyResponse_MXRecords r; VerifyResponse_Domain :=
        VerifyResponse_Domain r; VerifyResponse_SpamTrap := VerifyResponse_SpamTrap r;
        VerifyResponse_MXFound := VerifyResponse_MXFound r |}, bad));
    ("result", fun d r =>
       let '(x, bad) := storeString d (VerifyResponse_Result r) in
       ({| VerifyResponse_Email := VerifyResponse_Email r; VerifyResponse_Result := x;
        VerifyResponse_Reason := VerifyResponse_Reason r; VerifyResponse_Disposable :=
        VerifyResponse_Disposable r; VerifyResponse_Role := VerifyResponse_Role r;
        VerifyResponse_Free := VerifyResponse_Free r; VerifyResponse_Score :=
        VerifyResponse_Score r; VerifyResponse_SMTPProvider := VerifyResponse_SMTPProvider
        r; VerifyResponse_MXRecords := VerifyResponse_MXRecords r; VerifyResponse_Domain :=
        VerifyResponse_Domain r; VerifyResponse_SpamTrap := VerifyResponse_SpamTrap r;
        VerifyResponse_MXFound := VerifyResponse_MXFound r |}, bad));
    ("reason", fun d r =>
       let '(x, bad) := storeString d (VerifyResponse_Reason r) in
       ({| VerifyResponse_Email := VerifyResponse_Email r; VerifyResponse_Result :=
        VerifyResponse_Result r; VerifyResponse_Reason := x; VerifyResponse_Disposable :=
        VerifyResponse_Disposable r; VerifyResponse_Role := VerifyResponse_Role r;
        VerifyResponse_Free := VerifyResponse_Free r; VerifyResponse_Score :=
        VerifyResponse_Score r; VerifyResponse_SMTPProvider := VerifyResponse_SMTPProvider
        r; VerifyResponse_MXRecords := VerifyResponse_MXRecords r; VerifyResponse_Domain :=
        VerifyResponse_Domain r; VerifyResponse_SpamTrap := VerifyResponse_SpamTrap r;
        VerifyResponse_MXFound := VerifyResponse_MXFound r |}, bad));
    ("disposable", fun d r =>
       let '(x, bad) := decode d (VerifyResponse_Disposable r) in
       ({| VerifyResponse_Email := VerifyResponse_Email r; VerifyResponse_Result :=
        VerifyResponse_Result r; VerifyResponse_Reason := VerifyResponse_Reason r;
        VerifyResponse_Disposable := x; VerifyResponse_Role := VerifyResponse_Role r;
        VerifyResponse_Free := VerifyResponse_Free r; VerifyResponse_Score :=
        VerifyResponse_Score r; VerifyResponse_SMTPProvider := VerifyResponse_SMTPProvider
        r; VerifyResponse_MXRecords := VerifyResponse_MXRecords r; VerifyResponse_Domain :=
        VerifyResponse_Domain r; VerifyResponse_SpamTrap := VerifyResponse_SpamTrap r;
        VerifyResponse_MXFound := VerifyResponse_MXFound r |}, bad));
    ("role", fun d r =>
       let '(x, bad) := decode d (VerifyResponse_Role r) in
       ({| VerifyResponse_Email := VerifyResponse_Email r; VerifyResponse_Result :=
        VerifyResponse_Result r; VerifyResponse_Reason := VerifyResponse_Reason r;
        VerifyResponse_Disposable := VerifyResponse_Disposable r; VerifyResponse_Role := x;
        VerifyResponse_Free := VerifyResponse_Free r; VerifyResponse_Score :=
        VerifyResponse_Score r; VerifyResponse_SMTPProvider := VerifyResponse_SMTPProvider
        r; VerifyResponse_MXRecords := VerifyResponse_MXRecords r; VerifyResponse_Domain :=
        VerifyResponse_Domain r; VerifyResponse_SpamTrap := VerifyResponse_SpamTrap r;
        VerifyResponse_MXFound := VerifyResponse_MXFound r |}, bad));
    ("free", fun d r =>
       let '(x, bad) := decode d (VerifyResponse_Free r) in
       ({| VerifyResponse_Email := VerifyResponse_Email r; VerifyResponse_Result :=
        VerifyResponse_Result r; VerifyResponse_Reason := VerifyResponse_Reason r;
        VerifyResponse_Disposable := VerifyResponse_Disposable r; VerifyResponse_Role :=
        VerifyResponse_Role r; VerifyResponse_Free := x; VerifyResponse_Score :=
        VerifyResponse_Score r; VerifyResponse_SMTPProvider := VerifyResponse_SMTPProvider
        r; VerifyResponse_MXRecords := VerifyResponse_MXRecords r; VerifyResponse_Domain :=
        VerifyResponse_Domain r; VerifyResponse_SpamTrap := VerifyResponse_SpamTrap r;
        VerifyResponse_MXFound := VerifyResponse_MXFound r |}, bad));
    ("score", fun d r =>
       let '(x, bad) := storeFloat d (VerifyResponse_Score r) in
       ({| VerifyResponse_Email := VerifyResponse_Email r; VerifyResponse_Result :=
        VerifyResponse_Result r; VerifyResponse_Reason := VerifyResponse_Reason r;
        VerifyResponse_Disposable := VerifyResponse_Disposable r; VerifyResponse_Role :=
        VerifyResponse_Role r; VerifyResponse_Free := VerifyResponse_Free r;
        VerifyResponse_Score := x; VerifyResponse_SMTPProvider :=
        VerifyResponse_SMTPProvider r; VerifyResponse_MXRecords := VerifyResponse_MXRecords
        r; VerifyResponse_Domain := VerifyResponse_Domain r; VerifyResponse_SpamTrap :=
        VerifyResponse_SpamTrap r; VerifyResponse_MXFound := VerifyResponse_MXFound r |}, bad));
    ("smtp_provider", fun d r =>
       let '(x, bad) := storeString d (VerifyResponse_SMTPProvider r) in
       ({| VerifyResponse_Email := VerifyResponse_Email r; VerifyResponse_Result :=
        VerifyResponse_Result r; VerifyResponse_Reason := VerifyResponse_Reason r;
        VerifyResponse_Disposable := VerifyResponse_Disposable r; VerifyResponse_Role :=
        VerifyResponse_Role r; VerifyResponse_Free := VerifyResponse_Free r;
        VerifyResponse_Score := VerifyResponse_Score r; VerifyResponse_SMTPProvider := x;
        VerifyResponse_MXRecords := VerifyResponse_MXRecords r; VerifyResponse_Domain :=
        VerifyResponse_Domain r; VerifyResponse_SpamTrap := VerifyResponse_SpamTrap r;
        VerifyResponse_MXFound := VerifyResponse_MXFound r |}, bad));
    ("mx_records", fun d r =>
       let '(x, bad) := storeStrings d (VerifyResponse_MXRecords r) in
       ({| VerifyResponse_Email := VerifyResponse_Email r; VerifyResponse_Result :=
        VerifyResponse_Result r; VerifyResponse_Reason := VerifyResponse_Reason r;
        VerifyResponse_Disposable := VerifyResponse_Disposable r; VerifyResponse_Role :=
        VerifyResponse_Role r; VerifyResponse_Free := VerifyResponse_Free r;
        VerifyResponse_Score := VerifyResponse_Score r; VerifyResponse_SMTPProvider :=
        VerifyResponse_SMTPProvider r; VerifyResponse_MXRecords := x; VerifyResponse_Domain
        := VerifyResponse_Domain r; VerifyResponse_SpamTrap := VerifyResponse_SpamTrap r;
        VerifyResponse_MXFound := VerifyResponse_MXFound r |}, bad));
    ("domain", fun d r =>
       let '(x, bad) := storeString d (VerifyResponse_Domain r) in
       ({| VerifyResponse_Email := VerifyResponse_Email r; VerifyResponse_Result :=
        VerifyResponse_Result r; VerifyResponse_Reason := VerifyResponse_Reason r;
        VerifyResponse_Disposable := VerifyResponse_Disposable r; VerifyResponse_Role :=
        VerifyResponse_Role r; VerifyResponse_Free := VerifyResponse_Free r;
        VerifyResponse_Score := VerifyResponse_Score r; VerifyResponse_SMTPProvider :=
        VerifyResponse_SMTPProvider r; VerifyResponse_MXRecords := VerifyResponse_MXRecords
        r; VerifyResponse_Domain := x; VerifyResponse_SpamTrap := VerifyResponse_SpamTrap r;
        VerifyResponse_MXFound := VerifyResponse_MXFound r |}, bad));
    ("spam_trap", fun d r =>
       let '(x, bad) := decode d (VerifyResponse_SpamTrap r) in
       ({| VerifyResponse_Email := VerifyResponse_Email r; VerifyResponse_Result :=
        VerifyResponse_Result r; VerifyResponse_Reason := VerifyResponse_Reason r;
        VerifyResponse_Disposable := VerifyResponse_Disposable r; VerifyResponse_Role :=
        VerifyResponse_Role r; VerifyResponse_Free := VerifyResponse_Free r;
        VerifyResponse_Score := VerifyResponse_Score r; VerifyResponse_SMTPProvider :=
        VerifyResponse_SMTPProvider r; VerifyResponse_MXRecords := VerifyResponse_MXRecords
        r; VerifyResponse_Domain := VerifyResponse_Domain r; VerifyResponse_SpamTrap := x;
        VerifyResponse_MXFound := VerifyResponse_MXFound r |}, bad));
    ("mx_found", fun d r =>
       let '(x, bad) := decode d (VerifyResponse_MXFound r) in
       ({| VerifyResponse_Email := VerifyResponse_Email r; VerifyResponse_Result :=
        VerifyResponse_Result r; VerifyResponse_Reason := VerifyResponse_Reason r;
        VerifyResponse_Disposable := VerifyResponse_Disposable r; VerifyResponse_Role :=
        VerifyResponse_Role r; VerifyResponse_Free := VerifyResponse_Free r;
        VerifyResponse_Score := VerifyResponse_Score r; VerifyResponse_SMTPProvider :=
        VerifyResponse_SMTPProvider r; VerifyResponse_MXRecords := VerifyResponse_MXRecords
        r; VerifyResponse_Domain := VerifyResponse_Domain r; VerifyResponse_SpamTrap :=
        VerifyResponse_SpamTrap r; VerifyResponse_MXFound := x |}, bad)) ].

#[export] Instance unmarshal_VerifyResponse : Unmarshaler VerifyResponse :=
  {| zero := {| VerifyResponse_Email := ""; VerifyResponse_Result := "";
             VerifyResponse_Reason := ""; VerifyResponse_Disposable := false;
             VerifyResponse_Role := false; VerifyResponse_Free := false; VerifyResponse_Score
             := "0"; VerifyResponse_SMTPProvider := ""; VerifyResponse_MXRecords := None;
             VerifyResponse_Domain := ""; VerifyResponse_SpamTrap := false;
             VerifyResponse_MXFound := false |};
     decode := decodeStruct VerifyResponse_fields |}.

(** [BatchResponse] *)
Record BatchResponse := {
  BatchResponse_ID : Z;
  BatchResponse_Status : string;
  BatchResponse_TotalEmails : Z;
  BatchResponse_CreatedAt : string
}.

Definition BatchResponse_fields : list (field BatchResponse) :=
  [ ("id", fun d r =>
       let '(x, bad) := storeInt d (BatchResponse_ID r) in
       ({| BatchResponse_ID := x; BatchResponse_Status := BatchResponse_Status r;
        BatchResponse_TotalEmails := BatchResponse_TotalEmails r; BatchResponse_CreatedAt :=
        BatchResponse_CreatedAt r |}, bad));
    ("status", fun d r =>
       let '(x, bad) := storeString d (BatchResponse_Status r) in
       ({| BatchResponse_ID := BatchResponse_ID r; BatchResponse_Status := x;
        BatchResponse_TotalEmails := BatchResponse_TotalEmails r; BatchResponse_CreatedAt :=
        BatchResponse_CreatedAt r |}, bad));
    ("total_emails", fun d r =>
       let '(x, bad) := storeInt d (BatchResponse_TotalEmails r) in
       ({| BatchResponse_ID := BatchResponse_ID r; BatchResponse_Status :=
        BatchResponse_Status r; BatchResponse_TotalEmails := x; BatchResponse_CreatedAt :=
        BatchResponse_CreatedAt r |}, bad));
    ("created_at", fun d r =>
       let '(x, bad) := storeString d (BatchResponse_CreatedAt r) in
       ({| BatchResponse_ID := BatchResponse_ID r; BatchResponse_Status :=
        BatchResponse_Status r; BatchResponse_TotalEmails := BatchResponse_TotalEmails r;
        BatchResponse_CreatedAt := x |}, bad)) ].

#[export] Instance unmarshal_BatchResponse : Unmarshaler BatchResponse :=
  {| zero := {| BatchResponse_ID := 0; BatchResponse_Status := ""; BatchResponse_TotalEmails
             := 0; BatchResponse_CreatedAt := "" |};
     decode := decodeStruct BatchResponse_fields |}.

(** [BatchStatusResponse] *)
Record BatchStatusResponse := {
  BatchStatusResponse_ID : Z;
  BatchStatusResponse_Status : string;
  BatchStatusResponse_Progress : Z;
  BatchStatusResponse_TotalEmails : Z;
  BatchStatusResponse_ProcessedEmails : Z;
  BatchStatusResponse_ValidEmails : Z;
  BatchStatusResponse_InvalidEmails : Z;
  BatchStatusResponse_UnknownEmails : Z
}.

Definition BatchStatusResponse_fields : list (field BatchStatusResponse) :=
  [ ("id", fun d r =>
       let '(x, bad) := storeInt d (BatchStatusResponse_ID r) in
       ({| BatchStatusResponse_ID := x; BatchStatusResponse_Status :=
        BatchStatusResponse_Status r; BatchStatusResponse_Progress :=
        BatchStatusResponse_Progress r; BatchStatusResponse_TotalEmails :=
        BatchStatusResponse_TotalEmails r; BatchStatusResponse_ProcessedEmails :=
        BatchStatusResponse_ProcessedEmails r; BatchStatusResponse_ValidEmails :=
        BatchStatusResponse_ValidEmails r; BatchStatusResponse_InvalidEmails :=
        BatchStatusResponse_InvalidEmails r; BatchStatusResponse_UnknownEmails :=
        BatchStatusResponse_UnknownEmails r |}, bad));
    ("status", fun d r =>
       let '(x, bad) := storeString d (BatchStatusResponse_Status r) in
       ({| BatchStatusResponse_ID := BatchStatusResponse_ID r; BatchStatusResponse_Status :=
        x; BatchStatusResponse_Progress := BatchStatusResponse_Progress r;
        BatchStatusResponse_TotalEmails := BatchStatusResponse_TotalEmails r;
        BatchStatusResponse_ProcessedEmails := BatchStatusResponse_ProcessedEmails r;
        BatchStatusResponse_ValidEmails := BatchStatusResponse_ValidEmails r;
        BatchStatusResponse_InvalidEmails := BatchStatusResponse_InvalidEmails r;
        BatchStatusResponse_UnknownEmails := BatchStatusResponse_UnknownEmails r |}, bad));
    ("progress", fun d r =>
       let '(x, bad) := storeInt d (BatchStatusResponse_Progress r) in
       ({| BatchStatusResponse_ID := BatchStatusResponse_ID r; BatchStatusResponse_Status :=
        BatchStatusResponse_Status r; BatchStatusResponse_Progress := x;
        BatchStatusResponse_TotalEmails := BatchStatusResponse_TotalEmails r;
        BatchStatusResponse_ProcessedEmails := BatchStatusResponse_ProcessedEmails r;
        BatchStatusResponse_ValidEmails := BatchStatusResponse_ValidEmails r;
        BatchStatusResponse_InvalidEmails := BatchStatusResponse_InvalidEmails r;
        BatchStatusResponse_UnknownEmails := BatchStatusResponse_UnknownEmails r |}, bad));
    ("total_emails", fun d r =>
       let '(x, bad) := storeInt d (BatchStatusResponse_TotalEmails r) in
       ({| BatchStatusResponse_ID := BatchStatusResponse_ID r; BatchStatusResponse_Status :=
        BatchStatusResponse_Status r; BatchStatusResponse_Progress :=
        BatchStatusResponse_Progress r; BatchStatusResponse_TotalEmails := x;
        BatchStatusResponse_ProcessedEmails := BatchStatusResponse_ProcessedEmails r;
        BatchStatusResponse_ValidEmails := BatchStatusResponse_ValidEmails r;
        BatchStatusResponse_InvalidEmails := BatchStatusResponse_InvalidEmails r;
        BatchStatusResponse_UnknownEmails := BatchStatusResponse_UnknownEmails r |}, bad));
    ("processed_emails", fun d r =>
       let '(x, bad) := storeInt d (BatchStatusResponse_ProcessedEmails r) in
       ({| BatchStatusResponse_ID := BatchStatusResponse_ID r; BatchStatusResponse_Status :=
        BatchStatusResponse_Status r; BatchStatusResponse_Progress :=
        BatchStatusResponse_Progress r; BatchStatusResponse_TotalEmails :=
        BatchStatusResponse_TotalEmails r; BatchStatusResponse_ProcessedEmails := x;
        BatchStatusResponse_ValidEmails := BatchStatusResponse_ValidEmails r;
        BatchStatusResponse_InvalidEmails := BatchStatusResponse_InvalidEmails r;
        BatchStatusResponse_UnknownEmails := BatchStatusResponse_UnknownEmails r |}, bad));
    ("valid_emails", fun d r =>
       let '(x, bad) := storeInt d (BatchStatusResponse_ValidEmails r) in
       ({| BatchStatusResponse_ID := BatchStatusResponse_ID r; BatchStatusResponse_Status :=
        BatchStatusResponse_Status r; BatchStatusResponse_Progress :=
        BatchStatusResponse_Progress r; BatchStatusResponse_TotalEmails :=
        BatchStatusResponse_TotalEmails r; BatchStatusResponse_ProcessedEmails :=
        BatchStatusResponse_ProcessedEmails r; BatchStatusResponse_ValidEmails := x;
        BatchStatusResponse_InvalidEmails := BatchStatusResponse_InvalidEmails r;
        BatchStatusResponse_UnknownEmails := BatchStatusResponse_UnknownEmails r |}, bad));
    ("invalid_emails", fun d r =>
       let '(x, bad) := storeInt d (BatchStatusResponse_InvalidEmails r) in
       ({| BatchStatusResponse_ID := BatchStatusResponse_ID r; BatchStatusResponse_Status :=
        BatchStatusResponse_Status r; BatchStatusResponse_Progress :=
        BatchStatusResponse_Progress r; BatchStatusResponse_TotalEmails :=
        BatchStatusResponse_TotalEmails r; BatchStatusResponse_ProcessedEmails :=
        BatchStatusResponse_ProcessedEmails r; BatchStatusResponse_ValidEmails :=
        BatchStatusResponse_ValidEmails r; BatchStatusResponse_InvalidEmails := x;
        BatchStatusResponse_UnknownEmails := BatchStatusResponse_UnknownEmails r |}, bad));
    ("unknown_emails", fun d r =>
       let '(x, bad) := storeInt d (BatchStatusResponse_UnknownEmails r) in
       ({| BatchStatusResponse_ID := BatchStatusResponse_ID r; BatchStatusResponse_Status :=
        BatchStatusResponse_Status r; BatchStatusResponse_Progress :=
        BatchStatusResponse_Progress r; BatchStatusResponse_TotalEmails :=
        BatchStatusResponse_TotalEmails r; BatchStatusResponse_ProcessedEmails :=
        BatchStatusResponse_ProcessedEmails r; BatchStatusResponse_ValidEmails :=
        BatchStatusResponse_ValidEmails r; BatchStatusResponse_InvalidEmails :=
        BatchStatusResponse_InvalidEmails r; BatchStatusResponse_UnknownEmails := x |}, bad)) ].

#[export] Instance unmarshal_BatchStatusResponse : Unmarshaler BatchStatusResponse :=
  {| zero := {| BatchStatusResponse_ID := 0; BatchStatusResponse_Status := "";
             BatchStatusResponse_Progress := 0; BatchStatusResponse_TotalEmails := 0;
             BatchStatusResponse_ProcessedEmails := 0; BatchStatusResponse_ValidEmails := 0;
             BatchStatusResponse_InvalidEmails := 0; BatchStatusResponse_UnknownEmails := 0
             |};
     decode := decodeStruct BatchStatusResponse_fields |}.

(** *** Effects

    An operation runs on the log of the requests sent so far, to which every
    round trip adds its request, and either returns or panics. *)

Inductive outcome (A : Type) :=
| Returns (a : A)
| Panics (reason : string).
Arguments Returns {A} _.
Arguments Panics {A} _.

Definition M (A : Type) : Type := list Http.Request -> outcome A * list Http.Request.

Definition ret {A} (a : A) : M A := fun log => (Returns a, log).

Definition bind {A B} (m : M A) (k : A -> M B) : M B :=
  fun log =>
    match m log with
    | (Returns a, log') => k a log'
    | (Panics reason, log') => (Panics reason, log')
    end.

Definition panic {A} (reason : string) : M A := fun log => (Panics reason, log).

Notation "x <- m ;; k" := (bind m (fun x => k))
  (at level 100, m at next level, right associativity).

(** [x.(string)] *)
Definition assertString (x : value) : M string :=
  match x with
  | JString s => ret s
  | _ => panic "interface conversion: interface {} is not string"
  end.

(** The message of a case of the status switch:
    [msg := fallback; if errData != nil && errData[key] != nil { msg = errData[key].(string) }].
    Indexing a map at a missing key gives nil. *)
Definition message (errData : option (gmap string value)) (key fallback : string) : M string :=
  match errData with
  | None => ret fallback
  | Some m =>
      match m !! key with
      | None | Some JNull => ret fallback
      | Some x => assertString x
      end
  end.

(** The request [request] builds: [http.NewRequest] and the four calls of
    [req.Header.Set]. *)
Definition jsonRequest (c : Client) (method url : string) (body : option value) : Http.Request :=
  {| Http.Method := method;
     Http.URL := url;
     Http.ReqHeader :=
       Http.Set_ "User-Agent" "EmailListChecker-Go/1.0.0"
         (Http.Set_ "Accept" "application/json"
            (Http.Set_ "Content-Type" "application/json"
               (Http.Set_ "Authorization" ("Bearer " +:+ apiKey c) ∅)));
     Http.ReqBody := Http.JSONPayload <$> body |}.

(** The multipart body [VerifyBatchFile] writes.  Writing into a
    [bytes.Buffer] cannot fail, so [CreateFormFile], [WriteField] and [Close]
    return no error here. *)
Definition uploadParts (filePath content : string) (name callbackURL : option string)
    (autoStart : bool) : list Http.Part :=
  ([Http.FormFile "file" (Filepath.Base filePath) content;
    Http.Field "auto_start" (Strconv.FormatBool autoStart)]
   ++ match name with Some n => [Http.Field "name" n] | None => [] end
   ++ match callbackURL with Some u => [Http.Field "callback_url" u] | None => [] end)%list.

(** The request [VerifyBatchFile] builds: [http.NewRequest] and the three
    calls of [req.Header.Set]; [boundary] is the boundary of the writer, and
    the content type is [writer.FormDataContentType()]. *)
Definition uploadRequest (c : Client) (url boundary : string) (parts : list Http.Part)
    : Http.Request :=
  {| Http.Method := "POST";
     Http.URL := url;
     Http.ReqHeader :=
       Http.Set_ "User-Agent" "EmailListChecker-Go/1.0.0"
         (Http.Set_ "Content-Type" ("multipart/form-data; boundary=" +:+ boundary)
            (Http.Set_ "Authorization" ("Bearer " +:+ apiKey c) ∅));
     Http.ReqBody := Some (Http.MultipartPayload boundary parts) |}.

(** *** The client's operations

    The operations run against an environment that is not part of the
    repository: the HTTP transport behind [c.httpClient.Do], the file system
    behind [os.Open], the URL parser inside [http.NewRequest] and the boundary
    [multipart.NewWriter] draws.  They are parameters here. *)

Section Operations.

(** [Do hc log req] is the outcome of sending [req] through the HTTP client
    [hc] after the requests of [log] were sent: a response, or the text of
    a transport error (connection, timeout, DNS). *)
Variable Do : Http.Client -> list Http.Request -> Http.Request -> Http.Response + string.

(** [os.Open] followed by reading the file to its end: the text of the
    open error, or what [io.Copy] gets out of the opened file. *)
Variable Open : string -> string + (string + string).

(** [None] when [net/url] accepts the URL, else the text of its error. *)
Variable urlError : string -> option string.

(** The boundary of a fresh [multipart.Writer]: sixty hexadecimal
    digits, which [FormDataContentType] never needs to quote. *)
Variable boundary : string.

(** [c.httpClient.Do(req)]: one round trip, recorded in the log. *)
Definition httpClient_Do (c : Client) (req : Http.Request) : M (Http.Response + string) :=
  fun log => (Returns (Do (httpClient c) log req), (log ++ [req])%list).

(** [request] makes an HTTP request to the API.  [body] is the document the
    request value marshals to, [None] for a nil body; [result] is the value
    the result pointer points to, [None] for a nil pointer, and comes back
    as [request] leaves it. *)
Definition request {R} `{Unmarshaler R} (c : Client) (method endpoint : string)
    (body : option value) (result : option R) : M (option R * option error) :=
  let url := baseURL c +:+ endpoint in
  match urlError url with
  | Some e => ret (result, Some (Errorf "failed to create request" (External e)))
  | None =>
      let req := jsonRequest c method url body in
      resp <- httpClient_Do c req ;;
      match resp with
      | inr e => ret (result, Some (Errorf "request failed" (External e)))
      | inl resp =>
          match Http.Body resp with
          | inr e => ret (result, Some (Errorf "failed to read response body" (External e)))
          | inl respBody =>
              if 400 <=? Http.StatusCode resp then
                let errData := (Unmarshal respBody (None : option (gmap string value))).1 in
                if Http.StatusCode resp =? 401 then
                  msg <- message errData "error" "Invalid API key" ;;
                  ret (result, Some (NewAuthenticationError msg (Http.StatusCode resp) errData))
                else if Http.StatusCode resp =? 402 then
                  msg <- message errData "error" "Insufficient credits" ;;
                  ret (result, Some (NewInsufficientCreditsError msg (Http.StatusCode resp) errData))
                else if Http.StatusCode resp =? 422 then
                  msg <- message errData "message" "Validation error" ;;
                  ret (result, Some (NewValidationError msg (Http.StatusCode resp) errData))
                else if Http.StatusCode resp =? 429 then
                  let retryHeader := Http.Get "Retry-After" (Http.RespHeader resp) in
                  let retryAfter :=
                    if String.eqb retryHeader "" then 60
                    else match Strconv.Atoi retryHeader with
                         | Some val => val
                         | None => 60
                         end in
                  ret (result, Some (NewRateLimitError retryAfter (Http.StatusCode resp) errData))
                else
                  msg <- message errData "error"
                           ("API error: " +:+ Strconv.FormatInt (Http.StatusCode resp)) ;;
                  ret (result, Some (NewAPIError msg (Http.StatusCode resp) errData))
              else
                match result with
                | Some r =>
                    if len_is_zero respBody then ret (result, None)
                    else
                      let '(r', err) := Unmarshal respBody r in
                      match err with
                      | Some e =>
                          ret (Some r', Some (Errorf "failed to unmarshal response" (JsonError e)))
                      | None => ret (Some r', None)
                      end
                | None => ret (None, None)
                end
          end
      end
  end.

(** [Verify] verifies a single email address. *)
Definition Verify (c : Client) (email : string) (timeout : option Z) (smtpCheck : bool)
    : M (option VerifyResponse * option error) :=
  let req := {| Email := email; Timeout := timeout; SMTPCheck := smtpCheck |} in
  let result : envelope (option VerifyResponse) := zero in
  r <- request c "POST" "/verify" (Some (marshalVerifyRequest req)) (Some result) ;;
  let result := default result r.1 in
  match r.2 with
  | Some err => ret (None, Some err)
  | None =>
      match Data result with
      | Some data => ret (Some data, None)
      | None =>
          let directResult : VerifyResponse := zero in
          r <- request c "POST" "/verify" (Some (marshalVerifyRequest req)) (Some directResult) ;;
          ret (Some (default directResult r.1), r.2)
      end
  end.

(** [VerifyBatch] submits emails for batch verification. *)
Definition VerifyBatch (c : Client) (emails : option (list string)) (name callbackURL : string)
    (autoStart : bool) : M (option BatchResponse * option error) :=
  let req := {| Emails := emails; Name := name; CallbackURL := callbackURL;
                AutoStart := autoStart |} in
  let result : envelope (option BatchResponse) := zero in
  r <- request c "POST" "/verify/batch" (Some (marshalBatchRequest req)) (Some result) ;;
  let result := default result r.1 in
  match r.2 with
  | Some err => ret (None, Some err)
  | None =>
      match Data result with
      | Some data => ret (Some data, None)
      | None =>
          let directResult : BatchResponse := zero in
          r <- request c "POST" "/verify/batch" (Some (marshalBatchRequest req))
                 (Some directResult) ;;
          ret (Some (default directResult r.1), r.2)
      end
  end.

(** [VerifyBatchFile] uploads a file for batch verification. *)
Definition VerifyBatchFile (c : Client) (filePath : string) (name callbackURL : option string)
    (autoStart : bool) : M (option BatchResponse * option error) :=
  match Open filePath with
  | inl e => ret (None, Some (Errorf "failed to open file" (External e)))
  | inr (inl e) => ret (None, Some (External e))
  | inr (inr content) =>
      let url := baseURL c +:+ "/verify/batch/upload" in
      match urlError url with
      | Some e => ret (None, Some (External e))
      | None =>
          let req :=
            uploadRequest c url boundary
              (uploadParts filePath content name callbackURL autoStart) in
          resp <- httpClient_Do c req ;;
          match resp with
          | inr e => ret (None, Some (External e))
          | inl resp =>
              match Http.Body resp with
              | inr e => ret (None, Some (External e))
              | inl responseBody =>
                  if 400 <=? Http.StatusCode resp then
                    let errData :=
                      (Unmarshal responseBody (None : option (gmap string value))).1 in
                    if Http.StatusCode resp =? 401 then
                      msg <- message errData "error" "Invalid API key" ;;
                      ret (None, Some (NewAuthenticationError msg (Http.StatusCode resp) errData))
                    else if Http.StatusCode resp =? 402 then
                      msg <- message errData "error" "Insufficient credits" ;;
                      ret (None, Some (NewInsufficientCreditsError msg (Http.StatusCode resp) errData))
                    else if Http.StatusCode resp =? 422 then
                      msg <- message errData "message" "Validation error" ;;
                      ret (None, Some (NewValidationError msg (Http.StatusCode resp) errData))
                    else
                      msg <- message errData "error"
                               ("API error: " +:+ Strconv.FormatInt (Http.StatusCode resp)) ;;
                      ret (None, Some (NewAPIError msg (Http.StatusCode resp) errData))
                  else
                    let result : uploadEnvelope BatchResponse := zero in
                    let '(result, err) := Unmarshal responseBody result in
                    match err with
                    | Some e => ret (None, Some (JsonError e))
                    | None => ret (UploadData result, None)
                    end
              end
          end
      end
  end.

(** [GetBatchStatus] gets batch verification status. *)
Definition GetBatchStatus (c : Client) (batchID : Z)
    : M (option BatchStatusResponse * option error) :=
  let result : envelope (option BatchStatusResponse) := zero in
  let endpoint := "/verify/batch/" +:+ Strconv.FormatInt batchID in
  r <- request c "GET" endpoint None (Some result) ;;
  let result := default result r.1 in
  match r.2 with
  | Some err => ret (None, Some err)
  | None =>
      match Data result with
      | Some data => ret (Some data, None)
      | None =>
          let directResult : BatchStatusResponse := zero in
          r <- request c "GET" endpoint None (Some directResult) ;;
          ret (Some (default directResult r.1), r.2)
      end
  end.

(** The tail shared by the operations that decode the envelope only:
    [if err != nil { return nil, err }; return result.Data, nil]. *)
Definition dataOrError {X} `{Unmarshaler X} (r : option (envelope X) * option error)
    : X * option error :=
  match r.2 with
  | Some err => (zero, Some err)
  | None => (Data (default zero r.1), None)
  end.

(** [GetBatchResults] downloads batch verification results. *)
Definition GetBatchResults (c : Client) (batchID : Z) (format filter : string)
    : M (value * option error) :=
  let endpoint := "/verify/batch/" +:+ Strconv.FormatInt batchID
                  +:+ "/results?format=" +:+ format +:+ "&filter=" +:+ filter in
  let result : envelope value := zero in
  r <- request c "GET" endpoint None (Some result) ;;
  ret (dataOrError r).

(** [FindEmail] finds an email address by name and domain. *)
Definition FindEmail (c : Client) (firstName lastName domain : string)
    : M (option (gmap string value) * option error) :=
  let req := {| FirstName := firstName; LastName := lastName; Domain := domain |} in
  let result : envelope (option (gmap string value)) := zero in
  r <- request c "POST" "/finder/email" (Some (marshalFindEmailRequest req)) (Some result) ;;
  ret (dataOrError r).

(** [FindByDomain] finds emails by domain. *)
Definition FindByDomain (c : Client) (domain : string) (limit offset : Z)
    : M (option (gmap string value) * option error) :=
  let req := JObject [("domain", JString domain);
                      ("limit", JNumber (Strconv.FormatInt limit));
                      ("offset", JNumber (Strconv.FormatInt offset))] in
  let result : envelope (option (gmap string value)) := zero in
  r <- request c "POST" "/finder/domain" (Some req) (Some result) ;;
  ret (dataOrError r).

(** [FindByCompany] finds emails by company name. *)
Definition FindByCompany (c : Client) (company : string) (limit : Z)
    : M (option (gmap string value) * option error) :=
  let req := JObject [("company", JString company);
                      ("limit", JNumber (Strconv.FormatInt limit))] in
  let result : envelope (option (gmap string value)) := zero in
  r <- request c "POST" "/finder/company" (Some req) (Some result) ;;
  ret (dataOrError r).

(** [GetCredits] gets the current credit balance. *)
Definition GetCredits (c : Client) : M (option (gmap string value) * option error) :=
  let result : envelope (option (gmap string value)) := zero in
  r <- request c "GET" "/credits" None (Some result) ;;
  ret (dataOrError r).

(** [GetUsage] gets API usage statistics. *)
Definition GetUsage (c : Client) : M (option (gmap string value) * option error) :=
  let result : envelope (option (gmap string value)) := zero in
  r <- request c "GET" "/usage" None (Some result) ;;
  ret (dataOrError r).

(** [GetLists] gets all verification lists. *)
Definition GetLists (c : Client) : M (option (list value) * option error) :=
  let result : envelope (option (list value)) := zero in
  r <- request c "GET" "/lists" None (Some result) ;;
  ret (dataOrError r).

(** [DeleteList] deletes a verification list. *)
Definition DeleteList (c : Client) (listID : Z) : M (option error) :=
  let endpoint := "/lists/" +:+ Strconv.FormatInt listID in
  r <- request c "DELETE" endpoint None (None : option value) ;;
  ret r.2.

(** **** Shapes shared by the operations

    [Verify], [VerifyBatch] and [GetBatchStatus] are the same code at three
    result types, and so are the seven operations that decode the envelope
    only.  The two shapes are named here so that a fact about a shape is
    proved once; each operation is its shape by unfolding. *)

Definition withFallback {T} `{Unmarshaler T} (c : Client) (method endpoint : string)
    (body : option value) : M (option T * option error) :=
  let result : envelope (option T) := zero in
  r <- request c method endpoint body (Some result) ;;
  let result := default result r.1 in
  match r.2 with
  | Some err => ret (None, Some err)
  | None =>
      match Data result with
      | Some data => ret (Some data, None)
      | None =>
          let directResult : T := zero in
          r <- request c method endpoint body (Some directResult) ;;
          ret (Some (default directResult r.1), r.2)
      end
  end.

Definition envelopeOnly {X} `{Unmarshaler X} (c : Client) (method endpoint : string)
    (body : option value) : M (X * option error) :=
  let result : envelope X := zero in
  r <- request c method endpoint body (Some result) ;;
  ret (dataOrError r).

(** The requests one call of [request] sends: none when the URL is
    rejected, else the one request it builds. *)
Definition built (c : Client) (method endpoint : string) (body : option value)
    : list Http.Request :=
  match urlError (baseURL c +:+ endpoint) with
  | Some _ => []
  | None => [jsonRequest c method (baseURL c +:+ endpoint) body]
  end.

(** **** Every operation, as one type

    A call of the client names an operation and gives its arguments;
    [run] performs it and keeps the error it returns, [path] is the
    endpoint path of the operation in the interface table of the
    specification, and [sent] is what a computation adds to the log. *)

Inductive Call :=
| CallVerify (email : string) (timeout : option Z) (smtpCheck : bool)
| CallVerifyBatch (emails : option (list string)) (name callbackURL : string) (autoStart : bool)
| CallVerifyBatchFile (filePath : string) (name callbackURL : option string) (autoStart : bool)
| CallGetBatchStatus (batchID : Z)
| CallGetBatchResults (batchID : Z) (format filter : string)
| CallFindEmail (firstName lastName domain : string)
| CallFindByDomain (domain : string) (limit offset : Z)
| CallFindByCompany (company : string) (limit : Z)
| CallGetCredits
| CallGetUsage
| CallGetLists
| CallDeleteList (listID : Z).

Definition errorOf {A} (m : M (A * option error)) : M (option error) :=
  r <- m ;; ret r.2.

Definition run (c : Client) (k : Call) : M (option error) :=
  match k with
  | CallVerify email timeout smtpCheck => errorOf (Verify c email timeout smtpCheck)
  | CallVerifyBatch emails name callbackURL autoStart =>
      errorOf (VerifyBatch c emails name callbackURL autoStart)
  | CallVerifyBatchFile filePath name callbackURL autoStart =>
      errorOf (VerifyBatchFile c filePath name callbackURL autoStart)
  | CallGetBatchStatus batchID => errorOf (GetBatchStatus c batchID)
  | CallGetBatchResults batchID format filter =>
      errorOf (GetBatchResults c batchID format filter)
  | CallFindEmail firstName lastName domain => errorOf (FindEmail c firstName lastName domain)
  | CallFindByDomain domain limit offset => errorOf (FindByDomain c domain limit offset)
  | CallFindByCompany company limit => errorOf (FindByCompany c company limit)
  | CallGetCredits => errorOf (GetCredits c)
  | CallGetUsage => errorOf (GetUsage c)
  | CallGetLists => errorOf (GetLists c)
  | CallDeleteList listID => DeleteList c listID
  end.

End Operations.

Definition path (k : Call) : string :=
  match k with
  | CallVerify _ _ _ => "/verify"
  | CallVerifyBatch _ _ _ _ => "/verify/batch"
  | CallVerifyBatchFile _ _ _ _ => "/verify/batch/upload"
  | CallGetBatchStatus batchID => "/verify/batch/" +:+ Strconv.FormatInt batchID
  | CallGetBatchResults batchID format filter =>
      "/verify/batch/" +:+ Strconv.FormatInt batchID
      +:+ "/results?format=" +:+ format +:+ "&filter=" +:+ filter
  | CallFindEmail _ _ _ => "/finder/email"
  | CallFindByDomain _ _ _ => "/finder/domain"
  | CallFindByCompany _ _ => "/finder/company"
  | CallGetCredits => "/credits"
  | CallGetUsage => "/usage"
  | CallGetLists => "/lists"
  | CallDeleteList listID => "/lists/" +:+ Strconv.FormatInt listID
  end.

(** The method and the JSON body of the interface table. *)
Definition method (k : Call) : string :=
  match k with
  | CallVerify _ _ _ | CallVerifyBatch _ _ _ _ | CallVerifyBatchFile _ _ _ _
  | CallFindEmail _ _ _ | CallFindByDomain _ _ _ | CallFindByCompany _ _ => "POST"
  | CallGetBatchStatus _ | CallGetBatchResults _ _ _
  | CallGetCredits | CallGetUsage | CallGetLists => "GET"
  | CallDeleteList _ => "DELETE"
  end.

Definition payload (k : Call) : option value :=
  match k with
  | CallVerify email timeout smtpCheck =>
      Some (marshalVerifyRequest
              {| Email := email; Timeout := timeout; SMTPCheck := smtpCheck |})
  | CallVerifyBatch emails name callbackURL autoStart =>
      Some (marshalBatchRequest
              {| Emails := emails; Name := name; CallbackURL := callbackURL;
                 AutoStart := autoStart |})
  | CallFindEmail firstName lastName domain =>
      Some (marshalFindEmailRequest
              {| FirstName := firstName; LastName := lastName; Domain := domain |})
  | CallFindByDomain domain limit offset =>
      Some (JObject [("domain", JString domain);
                     ("limit", JNumber (Strconv.FormatInt limit));
                     ("offset", JNumber (Strconv.FormatInt offset))])
  | CallFindByCompany company limit =>
      Some (JObject [("company", JString company);
                     ("limit", JNumber (Strconv.FormatInt limit))])
  | _ => None
  end.

(** The request a call builds, once it can build one. *)
Definition requestOf (Open : string -> string + (string + string)) (boundary : string)
    (c : Client) (k : Call) : Http.Request :=
  match k with
  | CallVerifyBatchFile filePath name callbackURL autoStart =>
      uploadRequest c (baseURL c +:+ path k) boundary
        (uploadParts filePath
           match Open filePath with inr (inr content) => content | _ => "" end
           name callbackURL autoStart)
  | _ => jsonRequest c (method k) (baseURL c +:+ path k) (payload k)
  end.

(** A call can build its request: the URL parses and, for the upload, the
    file opens and is read to its end. *)
Definition buildable (Open : string -> string + (string + string))
    (urlError : string -> option string) (c : Client) (k : Call) : bool :=
  match urlError (baseURL c +:+ path k) with
  | Some _ => false
  | None =>
      match k with
      | CallVerifyBatchFile filePath _ _ _ =>
          match Open filePath with
          | inr (inr _) => true
          | _ => false
          end
      | _ => true
      end
  end.

(** The operations that re-issue their request when the envelope comes back
    empty. *)
Definition hasFallback (k : Call) : bool :=
  match k with
  | CallVerify _ _ _ | CallVerifyBatch _ _ _ _ | CallGetBatchStatus _ => true
  | _ => false
  end.

(** The requests a computation sends when started on [log]. *)
Definition sent {A} (m : M A) (log : list Http.Request) : list Http.Request :=
  drop (length log) (m log).2.

(** A round trip fails when the transport reports an error, the body cannot
    be read, or the status is 400 or more. *)
Definition failed (r : Http.Response + string) : bool :=
  match r with
  | inr _ => true
  | inl resp =>
      match Http.Body resp with
      | inr _ => true
      | inl _ => 400 <=? Http.StatusCode resp
      end
  end.

(** [n] copies of the request of a call fit what the call may send: none
    when it cannot build the request, one or two when it can, at most one for
    an operation without fallback, and at most one after a failed first round
    trip. *)
Definition counted (Do : Http.Client -> list Http.Request -> Http.Request -> Http.Response + string)
    (Open : string -> string + (string + string)) (urlError : string -> option string)
    (boundary : string) (c : Client) (k : Call) (log : list Http.Request) (n : nat) : Prop :=
  (buildable Open urlError c k = false -> n = 0%nat)
  /\ (buildable Open urlError c k = true -> (1 <= n <= 2)%nat)
  /\ (hasFallback k = false -> (n <= 1)%nat)
  /\ (failed (Do (httpClient c) log (requestOf Open boundary c k)) = true -> (n <= 1)%nat).

(** The first two bytes of a path are a slash and something else. *)
Definition singleSlashPrefixed (p : string) : bool :=
  match p with
  | String a (String b _) => (Ascii.eqb a "/" && negb (Ascii.eqb b "/"))%bool
  | _ => false
  end.

(** The retry-after of the specification: the value of the [Retry-After]
    response header if present and parseable as an integer, else 60. *)
Definition retryAfterOf (h : Http.Header) : Z :=
  match h !! "Retry-After" with
  | Some (v :: _) =>
      match Strconv.Atoi v with
      | Some n => n
      | None => 60
      end
  | _ => 60
  end.

(** An object has no usable data member: every member whose key selects the
    field tagged [data] is null. *)
Definition dataless (members : list (string * value)) : Prop :=
  Forall (fun m => matchesField "data" m.1 = true -> m.2 = JNull) members.

(** Every member whose key selects the field tagged [success] is a boolean
    or null. *)
Definition successTyped (members : list (string * value)) : Prop :=
  Forall (fun m => matchesField "success" m.1 = true ->
                   m.2 = JNull \/ exists b, m.2 = JBool b) members.

(** A target that JSON null resets to its zero value. *)
Definition nullable (X : Type) `{Unmarshaler X} : Prop :=
  forall x : X, decode JNull x = (zero, false).

(** The operations that decode the envelope and nothing else. *)
Definition envelopeOnlyCall (k : Call) : bool :=
  match k with
  | CallGetBatchResults _ _ _ | CallFindEmail _ _ _ | CallFindByDomain _ _ _
  | CallFindByCompany _ _ | CallGetCredits | CallGetUsage | CallGetLists => true
  | _ => false
  end.

(** A document that is neither null nor an object: an array, a string, a
    number or a boolean. *)
Definition notObject (v : value) : bool :=
  match v with
  | JNull | JObject _ => false
  | _ => true
  end.

(** An operation that decodes the envelope only, started on [log], returns
    its nil result (a nil interface, map or slice) with the error [err] and
    leaves the log [after]. *)
Definition returnsNil
    (Do : Http.Client -> list Http.Request -> Http.Request -> Http.Response + string)
    (urlError : string -> option string) (c : Client) (k : Call)
    (log : list Http.Request) (err : option error) (after : list Http.Request) : Prop :=
  match k with
  | CallGetBatchResults batchID format filter =>
      GetBatchResults Do urlError c batchID format filter log = (Returns (JNull, err), after)
  | CallFindEmail firstName lastName domain =>
      FindEmail Do urlError c firstName lastName domain log = (Returns (None, err), after)
  | CallFindByDomain domain limit offset =>
      FindByDomain Do urlError c domain limit offset log = (Returns (None, err), after)
  | CallFindByCompany company limit =>
      FindByCompany Do urlError c company limit log = (Returns (None, err), after)
  | CallGetCredits => GetCredits Do urlError c log = (Returns (None, err), after)
  | CallGetUsage => GetUsage Do urlError c log = (Returns (None, err), after)
  | CallGetLists => GetLists Do urlError c log = (Returns (None, err), after)
  | _ => True
  end.

(** A success body without data: no bytes, JSON null, or an object without
    a usable data member. *)
Inductive bare : Json.body -> Prop :=
| bare_empty : bare Empty
| bare_null : bare (Doc JNull)
| bare_object members : dataless members -> bare (Doc (JObject members)).

(** The payload field a case of the status switch reads its message from,
    and the text it falls back to. *)
Definition messageKey (status : Z) : string :=
  if status =? 422 then "message" else "error".

Definition fallbackText (status : Z) : string :=
  if status =? 401 then "Invalid API key"
  else if status =? 402 then "Insufficient credits"
  else if status =? 422 then "Validation error"
  else "API error: " +:+ Strconv.FormatInt status.

(** The message a payload gives: the string under [key], else [fallback]. *)
Definition messageFrom (errData : option (gmap string value)) (key fallback : string) : string :=
  match errData ≫= (fun m => m !! key) with
  | Some (JString s) => s
  | _ => fallback
  end.

(** The variant the upload gives a status: the table, but with no case for
    429. *)
Definition uploadTable (status : Z) : Variant :=
  if status =? 429 then Generic else table status.

(** A body whose decoded payload has nothing but strings or null under
    [error] and [message]. *)
Definition textual (b : Json.body) : Prop :=
  match (Unmarshal b (None : option (gmap string value))).1 with
  | None => True
  | Some m =>
      forall key x, key = "error" \/ key = "message" -> m !! key = Some x ->
                    x = JNull \/ exists s, x = JString s
  end.

(** The operations that hand a result pointer to [request]: all but the
    upload, which does not use [request], and DeleteList, which passes nil. *)
Definition decodes (k : Call) : bool :=
  match k with
  | CallVerifyBatchFile _ _ _ _ | CallDeleteList _ => false
  | _ => true
  end.

Definition isUpload (k : Call) : bool :=
  match k with
  | CallVerifyBatchFile _ _ _ _ => true
  | _ => false
  end.


(* ===================================================================== *)
(** ** A reference environment *)
(* ===================================================================== *)

(** A scripted transport, a one-file file system, a URL parser that accepts
    everything and a fixed boundary.  The worked examples run the operations
    in this environment; the general theorems hold in every environment. *)

Module Sample.

(** **** The environment *)

(** A transport that answers the n-th request of a run with the n-th
    response of a script, and refuses the connection after that. *)
Definition scripted (script : list Http.Response)
    : Http.Client -> list Http.Request -> Http.Request -> Http.Response + string :=
  fun _ log _ =>
    match script !! length log with
    | Some resp => inl resp
    | None => inr "dial tcp: connection refused"
    end.

(** A file system with the single readable file [emails.csv]. *)
Definition files (name : string) : string + (string + string) :=
  if String.eqb name "emails.csv" then inr (inr "a@b.com")
  else inl ("open " +:+ name +:+ ": no such file or directory").

(** Every URL parses. *)
Definition anyURL (url : string) : option string := None.

Definition boundary : string :=
  "0123456789abcdef0123456789abcdef0123456789abcdef0123456789ab".

Definition client : Client := NewClientWithConfig "key" "https://x.io/api/" DefaultTimeout.

Definition response (status : Z) (headers : list (string * string)) (b : Json.body)
    : Http.Response :=
  {| Http.StatusCode := status;
     Http.RespHeader := foldr (fun kv h => Http.Set_ kv.1 kv.2 h) ∅ headers;
     Http.Body := inl b |}.

(** Status 429 with [Retry-After: 30] and the body [{"error":"slow down"}]. *)
Definition slowDown : value := JObject [("error", JString "slow down")].
Definition tooMany : Http.Response := response 429 [("Retry-After", "30")] (Doc slowDown).

(** Status 401 with the body [{"error":123}]. *)
Definition numericError : Http.Response :=
  response 401 [] (Doc (JObject [("error", JNumber "123")])).

(** Status 422 with the body [{"message":{"email":"invalid"}}]. *)
Definition structuredMessage : Http.Response :=
  response 422 [] (Doc (JObject [("message", JObject [("email", JString "invalid")])])).

(** Status 500 with a body that is not JSON. *)
Definition gatewayPage : Http.Response := response 500 [] Invalid.

(** Status 200 with the bare object [{"email":"a@b.com","result":"deliverable"}]. *)
Definition bareVerify : value :=
  JObject [("email", JString "a@b.com"); ("result", JString "deliverable")].

(** Status 200 with the bare object [{"id":7,"status":"pending"}]. *)
Definition bareBatch : value :=
  JObject [("id", JNumber "7"); ("status", JString "pending")].

(** Status 200 with the body [{"success":true}]. *)
Definition accepted : Http.Response :=
  response 200 [] (Doc (JObject [("success", JBool true)])).

(** Status 200 with the body [{"success":"yes"}]. *)
Definition acceptedAsText : Http.Response :=
  response 200 [] (Doc (JObject [("success", JString "yes")])).

(** Status 200 with the body [{"credits":5}]. *)
Definition bareCredits : Http.Response :=
  response 200 [] (Doc (JObject [("credits", JNumber "5")])).

(** Status 200 with the body [[]]. *)
Definition bareList : Http.Response := response 200 [] (Doc (JArray [])).

Definition missing : string := "missing.csv".

(** A transport that gives the same answer to every request. *)
Definition constant (resp : Http.Response)
    : Http.Client -> list Http.Request -> Http.Request -> Http.Response + string :=
  fun _ _ _ => inl resp.

(** A URL parser that rejects everything. *)
Definition noURL (url : string) : option string := Some "missing protocol scheme".

(** A file system in which every path opens but cannot be read. *)
Definition directories (name : string) : string + (string + string) :=
  inr (inl ("read " +:+ name +:+ ": is a directory")).

(** A file system with the single readable file [lists/march.csv]. *)
Definition folder (name : string) : string + (string + string) :=
  if String.eqb name "lists/march.csv" then inr (inr "a@b.com")
  else inl ("open " +:+ name +:+ ": no such file or directory").

(** Status 200 with a body whose stream breaks off. *)
Definition truncated : Http.Response :=
  {| Http.StatusCode := 200; Http.RespHeader := ∅; Http.Body := inr "unexpected EOF" |}.

(** Status 200 with a body that is not JSON, and with no body. *)
Definition page : Http.Response := response 200 [] Invalid.
Definition noContent : Http.Response := response 204 [] Empty.

(** Status 401 with the body [{"error":"bad key"}]. *)
Definition badKey : Http.Response :=
  response 401 [] (Doc (JObject [("error", JString "bad key")])).

(** Status 200 with the envelope [{"data":{"id":5,"status":"completed","progress":100}}]. *)
Definition snapshot : value :=
  JObject [("id", JNumber "5"); ("status", JString "completed"); ("progress", JNumber "100")].
Definition enveloped : Http.Response :=
  response 200 [] (Doc (JObject [("data", snapshot)])).

End Sample.

(* ===================================================================== *)
(** ** Properties *)
(* ===================================================================== *)

Section Properties.

Variable Do : Http.Client -> list Http.Request -> Http.Request -> Http.Response + string.
Variable Open : string -> string + (string + string).
Variable urlError : string -> option string.
Variable boundary : string.

Lemma message_log errData key fallback log :
  (message errData key fallback log).2 = log.
Proof.
  unfold message, assertString, ret, panic.
  repeat case_match; reflexivity.
Qed.

Lemma bind_log {A B} (m : M A) (k : A -> M B) log :
  (bind m k log).2 =
  match (m log).1 with
  | Returns a => (k a (m log).2).2
  | Panics _ => (m log).2
  end.
Proof. unfold bind. destruct (m log) as [[a|r] l]; reflexivity. Qed.

Lemma request_log {R} `{Unmarshaler R} c method endpoint body (result : option R) log :
  (request Do urlError c method endpoint body result log).2
  = (log ++ built urlError c method endpoint body)%list.
Proof.
  unfold request, built.
  destruct (urlError _); [ by rewrite app_nil_r |].
  rewrite bind_log. unfold httpClient_Do. cbn [fst snd].
  repeat (case_match; try reflexivity; try (rewrite bind_log, message_log; by case_match)).
Qed.

Lemma request_unbuilt {R} `{Unmarshaler R} c method endpoint body (result : option R) log e :
  urlError (baseURL c +:+ endpoint) = Some e ->
  request Do urlError c method endpoint body result log
  = (Returns (result, Some (Errorf "failed to create request" (External e))), log).
Proof. intros E. unfold request. rewrite E. reflexivity. Qed.

(** A failed round trip makes [request] return an error or panic. *)
Lemma request_failed {R} `{Unmarshaler R} c method endpoint body (result : option R) log r :
  urlError (baseURL c +:+ endpoint) = None ->
  failed (Do (httpClient c) log (jsonRequest c method (baseURL c +:+ endpoint) body)) = true ->
  (request Do urlError c method endpoint body result log).1 = Returns r ->
  is_Some r.2.
Proof.
  intros E F. unfold request. rewrite E. unfold bind, httpClient_Do, failed in *.
  destruct (Do _ _ _) as [resp|e]; cbn; [| intros [= <-]; eauto ].
  destruct (Http.Body resp) as [b|e]; cbn; [| intros [= <-]; eauto ].
  rewrite F.
  repeat case_match; cbn; intros [= <-]; eauto.
Qed.

Lemma withFallback_log {T} `{Unmarshaler T} c method endpoint body log :
  let reqs := built urlError c method endpoint body in
  (withFallback (T:=T) Do urlError c method endpoint body log).2 = (log ++ reqs)%list
  \/ (withFallback (T:=T) Do urlError c method endpoint body log).2 = (log ++ reqs ++ reqs)%list.
Proof.
  cbn zeta. unfold withFallback. rewrite bind_log.
  rewrite request_log.
  destruct (request _ _ _ _ _ _ _ _).1 as [r|?]; [| by left].
  destruct r.2; [ by left |].
  destruct (Data _); [ by left |].
  right. rewrite bind_log, request_log. rewrite <- app_assoc.
  by case_match.
Qed.

Lemma withFallback_once {T} `{Unmarshaler T} c method endpoint body log :
  (urlError (baseURL c +:+ endpoint) = None ->
   failed (Do (httpClient c) log (jsonRequest c method (baseURL c +:+ endpoint) body)) = true) ->
  (withFallback (T:=T) Do urlError c method endpoint body log).2
  = (log ++ built urlError c method endpoint body)%list.
Proof.
  intros F. unfold withFallback. rewrite bind_log, request_log.
  destruct (request _ _ _ _ _ _ _ _).1 as [r|?] eqn:E; [| done].
  destruct (urlError (baseURL c +:+ endpoint)) as [e|] eqn:U.
  - rewrite (request_unbuilt _ _ _ _ _ _ e U) in E. cbn in E. by injection E as <-.
  - destruct (request_failed _ _ _ _ _ _ _ U (F eq_refl) E) as [e ->]. done.
Qed.

Lemma envelopeOnly_log {X} `{Unmarshaler X} c method endpoint body log :
  (envelopeOnly (X:=X) Do urlError c method endpoint body log).2
  = (log ++ built urlError c method endpoint body)%list.
Proof.
  unfold envelopeOnly. rewrite bind_log, request_log. by case_match.
Qed.

Lemma VerifyBatchFile_log c filePath name callbackURL autoStart log :
  (VerifyBatchFile Do Open urlError boundary c filePath name callbackURL autoStart log).2
  = (log ++ match Open filePath, urlError (baseURL c +:+ "/verify/batch/upload") with
            | inr (inr content), None =>
                [uploadRequest c (baseURL c +:+ "/verify/batch/upload") boundary
                   (uploadParts filePath content name callbackURL autoStart)]
            | _, _ => []
            end)%list.
Proof.
  unfold VerifyBatchFile.
  destruct (Open filePath) as [e|[e|content]]; try by rewrite app_nil_r.
  destruct (urlError _); [ by rewrite app_nil_r |].
  rewrite bind_log. unfold httpClient_Do. cbn [fst snd].
  repeat (case_match; try reflexivity; try (rewrite bind_log, message_log; by case_match)).
Qed.

Lemma sent_app {A} (m : M A) log reqs :
  (m log).2 = (log ++ reqs)%list -> sent m log = reqs.
Proof. intros E. unfold sent. rewrite E. apply drop_app_length. Qed.

Lemma errorOf_log {A} (m : M (A * option error)) log :
  (errorOf m log).2 = (m log).2.
Proof. unfold errorOf. rewrite bind_log. by case_match. Qed.

Lemma DeleteList_log c listID log :
  (DeleteList Do urlError c listID log).2
  = (log ++ built urlError c "DELETE" ("/lists/" +:+ Strconv.FormatInt listID) None)%list.
Proof. unfold DeleteList. rewrite bind_log, request_log. by case_match. Qed.

Lemma counted_fallback {T} `{Unmarshaler T} c k log :
  hasFallback k = true ->
  exists n,
    (withFallback (T:=T) Do urlError c (method k) (path k) (payload k) log).2
    = (log ++ replicate n (requestOf Open boundary c k))%list
    /\ counted Do Open urlError boundary c k log n.
Proof.
  intros F.
  assert (R : requestOf Open boundary c k
              = jsonRequest c (method k) (baseURL c +:+ path k) (payload k))
    by (by destruct k).
  assert (B : buildable Open urlError c k
              = match urlError (baseURL c +:+ path k) with Some _ => false | None => true end)
    by (destruct k; try done; unfold buildable; by case_match).
  unfold counted. rewrite R, B, F.
  destruct (urlError (baseURL c +:+ path k)) as [e|] eqn:U.
  - exists 0%nat. split; [| by intuition lia ].
    destruct (withFallback_log (T:=T) c (method k) (path k) (payload k) log) as [E|E];
      rewrite E; unfold built; by rewrite U.
  - destruct (decide (failed (Do (httpClient c) log
                (jsonRequest c (method k) (baseURL c +:+ path k) (payload k))) = true)) as [Y|N].
    + exists 1%nat. split; [| by intuition lia ].
      rewrite withFallback_once by done. unfold built. by rewrite U.
    + destruct (withFallback_log (T:=T) c (method k) (path k) (payload k) log) as [E|E];
        rewrite E; unfold built; rewrite U; [exists 1%nat | exists 2%nat];
        (split; [ done | by intuition (try lia; try done) ]).
Qed.

Lemma counted_built c k log (l : list Http.Request) :
  hasFallback k = false ->
  match k with CallVerifyBatchFile _ _ _ _ => False | _ => True end ->
  l = (log ++ built urlError c (method k) (path k) (payload k))%list ->
  exists n, l = (log ++ replicate n (requestOf Open boundary c k))%list /\ counted Do Open urlError boundary c k log n.
Proof.
  intros F U ->. unfold counted, built. rewrite F.
  assert (R : requestOf Open boundary c k
              = jsonRequest c (method k) (baseURL c +:+ path k) (payload k))
    by (by destruct k).
  assert (B : buildable Open urlError c k
              = match urlError (baseURL c +:+ path k) with Some _ => false | None => true end)
    by (destruct k; try done; unfold buildable; by case_match).
  rewrite R, B.
  destruct (urlError (baseURL c +:+ path k)); [exists 0%nat | exists 1%nat];
    (split; [ done | by intuition (try lia; try done) ]).
Qed.

Lemma counted_upload c filePath name callbackURL autoStart log :
  let k := CallVerifyBatchFile filePath name callbackURL autoStart in
  exists n,
    (VerifyBatchFile Do Open urlError boundary c
       filePath name callbackURL autoStart log).2
    = (log ++ replicate n (requestOf Open boundary c k))%list
    /\ counted Do Open urlError boundary c k log n.
Proof.
  cbn zeta. rewrite VerifyBatchFile_log. unfold counted, buildable, requestOf.
  cbn [path hasFallback].
  destruct (Open filePath) as [e|[e|content]], (urlError _);
    ((exists 0%nat; split; [ done | by intuition (try lia; try done) ])
     || (exists 1%nat; split; [ done | by intuition (try lia; try done) ])).
Qed.


(** Every call sends copies of its one request, as many as [counted]
    allows. *)
Lemma run_sent c k log :
  exists n, sent (run Do Open urlError boundary c k) log = replicate n (requestOf Open boundary c k)
            /\ counted Do Open urlError boundary c k log n.
Proof.
  assert (N : exists n, (run Do Open urlError boundary c k log).2 = (log ++ replicate n (requestOf Open boundary c k))%list
                        /\ counted Do Open urlError boundary c k log n).
  { destruct k; cbn [run]; rewrite ?errorOf_log.
    - exact (counted_fallback c (CallVerify email timeout smtpCheck) log eq_refl).
    - exact (counted_fallback c (CallVerifyBatch emails name callbackURL autoStart) log eq_refl).
    - apply counted_upload.
    - exact (counted_fallback c (CallGetBatchStatus batchID) log eq_refl).
    - apply counted_built; [done..|]. exact (envelopeOnly_log c _ _ _ log).
    - apply counted_built; [done..|]. exact (envelopeOnly_log c _ _ _ log).
    - apply counted_built; [done..|]. exact (envelopeOnly_log c _ _ _ log).
    - apply counted_built; [done..|]. exact (envelopeOnly_log c _ _ _ log).
    - apply counted_built; [done..|]. exact (envelopeOnly_log c _ _ _ log).
    - apply counted_built; [done..|]. exact (envelopeOnly_log c _ _ _ log).
    - apply counted_built; [done..|]. exact (envelopeOnly_log c _ _ _ log).
    - apply counted_built; [done..|]. apply DeleteList_log. }
  destruct N as (n & E & C). exists n. split; [ by apply sent_app | done ].
Qed.

(** X20.  A call sends no request when it cannot build one (the
    URL is rejected or, for the upload, the file cannot be opened and read)
    and one or two when it can; an operation other than Verify,
    VerifyBatch and GetBatchStatus sends at most one; and no operation sends
    a second request after a first round trip that failed (transport error,
    unreadable body, status 400 or more): a failure is never retried. *)
Theorem round_trips_per_call c k log :
  let reqs := sent (run Do Open urlError boundary c k) log in
  (buildable Open urlError c k = false -> reqs = [])
  /\ (buildable Open urlError c k = true -> (1 <= length reqs <= 2)%nat)
  /\ (hasFallback k = false -> (length reqs <= 1)%nat)
  /\ (failed (Do (httpClient c) log (requestOf Open boundary c k)) = true ->
      (length reqs <= 1)%nat).
Proof.
  cbn zeta. destruct (run_sent c k log) as (n & -> & C0 & C1 & C2 & C3).
  rewrite length_replicate.
  split; [| split; [| split ]]; intros Hyp.
  - by rewrite (C0 Hyp).
  - exact (C1 Hyp).
  - exact (C2 Hyp).
  - exact (C3 Hyp).
Qed.

(** **** The base URL *)

Lemma TrimRight_slash_suffix s :
  Strings.HasSuffixByte (Strings.TrimRight s "/") "/" = false.
Proof.
  induction s as [|a s IH]; [done|].
  cbn [Strings.TrimRight].
  destruct (Strings.TrimRight s "/") as [|b t] eqn:E.
  - cbn [Strings.ContainsByte]. destruct (Ascii.eqb a "/") eqn:A; cbn; [done|].
    by rewrite A.
  - cbn [Strings.HasSuffixByte] in *. exact IH.
Qed.

Lemma append_nil_l (s : string) : "" +:+ s = s.
Proof. reflexivity. Qed.

Lemma append_cons a (s t : string) : String a s +:+ t = String a (s +:+ t).
Proof. reflexivity. Qed.

Lemma TrimRight_slash_split s :
  exists n, s = Strings.TrimRight s "/" +:+ Strings.Repeat "/" n.
Proof.
  induction s as [|a s [n IH]]; [by exists 0%nat|].
  cbn [Strings.TrimRight].
  destruct (Strings.TrimRight s "/") as [|b t] eqn:E.
  - rewrite append_nil_l in IH. cbn [Strings.ContainsByte].
    destruct (Ascii.eqb a "/") eqn:A; cbn [orb].
    + apply Ascii.eqb_eq in A as ->. exists (S n).
      rewrite append_nil_l. cbn [Strings.Repeat]. by rewrite <- IH.
    + exists n. rewrite append_cons, append_nil_l. by rewrite <- IH.
  - exists n. rewrite append_cons. by rewrite <- IH.
Qed.

Lemma requestOf_URL c k : Http.URL (requestOf Open boundary c k) = baseURL c +:+ path k.
Proof. by destruct k. Qed.

Lemma path_prefixed k : singleSlashPrefixed (path k) = true.
Proof. by destruct k. Qed.

(** C7.  The base URL of a configured client is the given string without
    its trailing slashes, so it does not end in a slash; the default base
    URL does not either.  A client value is never updated: after any
    history of requests, each request of each call goes to the base URL the
    client was built with followed by the path of the operation, which
    starts with one slash and a byte that is not a slash, so the two are
    joined by exactly one slash.  A call does address that URL: it is the
    URL handed to the parser, and when the call can build its request, the
    first request it sends goes there; when it cannot, it sends nothing. *)
Theorem base_url_normalised key url timeout :
  let c := NewClientWithConfig key url timeout in
  Strings.HasSuffixByte (baseURL c) "/" = false
  /\ (exists n, url = baseURL c +:+ Strings.Repeat "/" n)
  /\ baseURL (NewClient key) = DefaultBaseURL
  /\ Strings.HasSuffixByte DefaultBaseURL "/" = false
  /\ forall (c' : Client) k log,
       Forall (fun req => Http.URL req = baseURL c' +:+ path k)
              (sent (run Do Open urlError boundary c' k) log)
       /\ singleSlashPrefixed (path k) = true
       /\ Http.URL <$> head (sent (run Do Open urlError boundary c' k) log)
          = if buildable Open urlError c' k then Some (baseURL c' +:+ path k) else None.
Proof.
  cbn zeta. split; [ apply TrimRight_slash_suffix |].
  split; [ apply TrimRight_slash_split |].
  do 2 (split; [ reflexivity |]).
  intros c' k log.
  destruct (run_sent c' k log) as (n & -> & C0 & C1 & _).
  split; [ apply Forall_replicate, requestOf_URL |].
  split; [ apply path_prefixed |].
  destruct (buildable Open urlError c' k).
  - destruct n as [|n]; [ specialize (C1 eq_refl); lia |].
    cbn. by rewrite requestOf_URL.
  - by rewrite (C0 eq_refl).
Qed.

(** C8.  When the file cannot be opened, VerifyBatchFile returns the open
    error, wrapped, and leaves the log of requests as it found it: nothing
    is sent. *)
Theorem upload_open_failure c filePath name callbackURL autoStart log e :
  Open filePath = inl e ->
  VerifyBatchFile Do Open urlError boundary c filePath name callbackURL autoStart log
  = (Returns (None, Some (Errorf "failed to open file" (External e))), log).
Proof. intros E. unfold VerifyBatchFile. by rewrite E. Qed.

(** **** Retry-After *)

Lemma digits_acc d acc :
  Strconv.digits (NilEmpty.string_of_uint d) (Z.pos acc)
  = Some (Z.pos (Pos.of_uint_acc d acc)).
Proof.
  revert acc. induction d as [|d IH|d IH|d IH|d IH|d IH|d IH|d IH|d IH|d IH|d IH];
    intros acc; [ reflexivity | .. ];
    cbn [NilEmpty.string_of_uint Strconv.digits Pos.of_uint_acc];
    match goal with
    | |- context [Strconv.digit ?ch] =>
        let v := eval vm_compute in (Strconv.digit ch) in
        change (Strconv.digit ch) with v
    end;
    cbv iota beta; rewrite <- IH; f_equal; lia.
Qed.

Lemma digits_zero d :
  Strconv.digits (NilEmpty.string_of_uint d) 0 = Some (Z.of_N (Pos.of_uint d)).
Proof.
  induction d as [|d IH|d IH|d IH|d IH|d IH|d IH|d IH|d IH|d IH|d IH];
    [ reflexivity | exact IH | .. ];
    cbn [NilEmpty.string_of_uint Strconv.digits Pos.of_uint];
    match goal with
    | |- context [Strconv.digit ?ch] =>
        let v := eval vm_compute in (Strconv.digit ch) in
        change (Strconv.digit ch) with v
    end;
    cbv iota beta; cbn [Z.of_N]; rewrite <- digits_acc; f_equal.
Qed.

Lemma digits_to_uint p :
  Strconv.digits (NilEmpty.string_of_uint (Pos.to_uint p)) 0 = Some (Z.pos p).
Proof. by rewrite digits_zero, DecimalPos.Unsigned.of_to. Qed.

(** A decimal numeral starts with a digit, so it is not empty and has no
    sign. *)
Lemma numeral_head d :
  d <> Decimal.Nil ->
  exists ch s, NilEmpty.string_of_uint d = String ch s
               /\ Ascii.eqb ch "-" = false /\ Ascii.eqb ch "+" = false.
Proof. destruct d; [done | ..]; intros _; eexists _, _; by split. Qed.

Lemma Atoi_numeral (neg : bool) d v :
  d <> Decimal.Nil ->
  Strconv.digits (NilEmpty.string_of_uint d) 0 = Some v ->
  Strconv.minInt <= (if neg then - v else v) <= Strconv.maxInt ->
  Strconv.Atoi ((if neg then String "-" else id) (NilEmpty.string_of_uint d))
  = Some (if neg then - v else v).
Proof.
  intros NN D R. destruct (numeral_head d NN) as (ch & s & E & M & P).
  rewrite E in *. unfold Strconv.Atoi.
  assert (C : ((Strconv.minInt <=? (if neg then - v else v))
               && ((if neg then - v else v) <=? Strconv.maxInt))%bool = true)
    by (apply andb_true_iff; split; apply Z.leb_le; lia).
  destruct neg; cbn [id].
  - change (Ascii.eqb "-" "-") with true. cbn [orb]. by rewrite D, C.
  - rewrite M, P. cbn [orb]. by rewrite D, C.
Qed.

(** [Atoi] reads back what [%d] prints, for every [int]. *)
Lemma Atoi_FormatInt n :
  Strconv.minInt <= n <= Strconv.maxInt ->
  Strconv.Atoi (Strconv.FormatInt n) = Some n.
Proof.
  intros R. unfold Strconv.FormatInt.
  destruct n as [|p|p]; [ reflexivity | | ];
    cbn [Z.to_int NilZero.string_of_int];
    pose proof (Unsigned.to_uint_nonnil p) as NN;
    pose proof (digits_to_uint p) as D;
    assert (Z : NilZero.string_of_uint (Pos.to_uint p)
                = NilEmpty.string_of_uint (Pos.to_uint p))
      by (by destruct (Pos.to_uint p));
    rewrite Z.
  - exact (Atoi_numeral false _ _ NN D R).
  - exact (Atoi_numeral true _ _ NN D R).
Qed.

Lemma retryAfter_header h :
  (let retryHeader := Http.Get "Retry-After" h in
   if String.eqb retryHeader "" then 60
   else match Strconv.Atoi retryHeader with
        | Some val => val
        | None => 60
        end)
  = retryAfterOf h.
Proof.
  unfold Http.Get, retryAfterOf.
  destruct (h !! "Retry-After") as [[|v vs]|]; [done | | done].
  cbn zeta. destruct (String.eqb v "") eqn:E; [| done].
  by apply String.eqb_eq in E as ->.
Qed.

(** C6.  When a request of the dispatcher is answered with status 429, it
    returns a RateLimit error whose retry-after is the integer that Atoi
    reads in the first value of the Retry-After response header, and 60
    when the header is missing or Atoi rejects its value; the message of
    the error is built from that number, and the error carries the status
    and the decoded payload.  A header of 120 gives 120, the decimal text
    of any int gives that int, and a missing header or a value that is not
    an integer gives 60. *)
Theorem rate_limit_retry_after {R} `{Unmarshaler R} c method endpoint body
    (result : option R) log resp respBody :
  urlError (baseURL c +:+ endpoint) = None ->
  Do (httpClient c) log (jsonRequest c method (baseURL c +:+ endpoint) body) = inl resp ->
  Http.Body resp = inl respBody ->
  Http.StatusCode resp = 429 ->
  (request (R:=R) Do urlError c method endpoint body result log).1
  = Returns (result,
             Some (RateLimitError
                     {| Message := "Rate limit exceeded. Retry after "
                                   +:+ Strconv.FormatInt (retryAfterOf (Http.RespHeader resp))
                                   +:+ " seconds";
                        StatusCode := 429;
                        ResponseData :=
                          (Unmarshal respBody (None : option (gmap string value))).1 |}
                     (retryAfterOf (Http.RespHeader resp))))
  /\ retryAfterOf (Http.Set_ "Retry-After" "120" ∅) = 120
  /\ (forall n, Strconv.minInt <= n <= Strconv.maxInt ->
                retryAfterOf (Http.Set_ "Retry-After" (Strconv.FormatInt n) ∅) = n)
  /\ retryAfterOf ∅ = 60
  /\ retryAfterOf (Http.Set_ "Retry-After" "soon" ∅) = 60
  /\ retryAfterOf (Http.Set_ "Retry-After" "1.5" ∅) = 60.
Proof.
  intros U D B S. split.
  - unfold request. rewrite U. unfold bind, httpClient_Do. rewrite D. cbn [fst snd].
    rewrite B, S. cbn [Z.leb Z.eqb Z.compare Pos.compare Pos.compare_cont Pos.eqb].
    unfold ret. cbn [fst]. unfold NewRateLimitError. by rewrite retryAfter_header.
  - split; [ reflexivity |]. split; [| by repeat split ].
    intros n Rn. unfold retryAfterOf, Http.Set_. rewrite lookup_insert_eq.
    by rewrite Atoi_FormatInt.
Qed.

(** **** Success bodies without data *)

Lemma findField_single {S} name (f : value -> S -> S * bool) key :
  findField [(name, f)] key = if matchesField name key then Some (name, f) else None.
Proof.
  unfold findField, matchesField. cbn.
  by destruct (String.eqb key name), (String.eqb (foldName key) (foldName name)).
Qed.

Lemma decode_envelope_dataless {X} `{Unmarshaler X} members :
  nullable X -> dataless members ->
  decode (JObject members) (zero : envelope X) = (zero, false).
Proof.
  intros N D. cbn. induction D as [|m members Hm _ IH]; [done|].
  cbn [foldl]. unfold storeMember at 2, envelope_fields. rewrite findField_single.
  destruct (matchesField "data" m.1) eqn:E; [| exact IH ].
  rewrite (Hm eq_refl). cbn. rewrite N. exact IH.
Qed.

Lemma Unmarshal_bare {X} `{Unmarshaler X} b :
  nullable X -> bare b -> len_is_zero b = false ->
  Unmarshal b (zero : envelope X) = (zero, None).
Proof.
  intros N B L. destruct B as [| |members D]; [done | done |].
  unfold Unmarshal. by rewrite decode_envelope_dataless.
Qed.

(** What [request] returns for a success response without data, decoded
    into an envelope: the envelope as it was, no error, one request sent. *)
Lemma request_bare {X} `{Unmarshaler X} c method endpoint body log resp b :
  nullable X ->
  urlError (baseURL c +:+ endpoint) = None ->
  Do (httpClient c) log (jsonRequest c method (baseURL c +:+ endpoint) body) = inl resp ->
  Http.StatusCode resp < 400 ->
  Http.Body resp = inl b ->
  bare b ->
  request Do urlError c method endpoint body (Some (zero : envelope X)) log
  = (Returns (Some zero, None),
     (log ++ [jsonRequest c method (baseURL c +:+ endpoint) body])%list).
Proof.
  intros N U D S B Bare. unfold request. rewrite U.
  unfold bind, httpClient_Do. rewrite D. cbn [fst snd]. rewrite B.
  apply Z.leb_gt in S. rewrite S.
  destruct (len_is_zero b) eqn:L; [done|].
  by rewrite Unmarshal_bare.
Qed.

Lemma envelopeOnly_bare {X} `{Unmarshaler X} c method endpoint body log resp b :
  nullable X ->
  urlError (baseURL c +:+ endpoint) = None ->
  Do (httpClient c) log (jsonRequest c method (baseURL c +:+ endpoint) body) = inl resp ->
  Http.StatusCode resp < 400 ->
  Http.Body resp = inl b ->
  bare b ->
  envelopeOnly (X:=X) Do urlError c method endpoint body log
  = (Returns (zero, None),
     (log ++ [jsonRequest c method (baseURL c +:+ endpoint) body])%list).
Proof.
  intros N U D S B Bare. unfold envelopeOnly, bind.
  by rewrite (request_bare c method endpoint body log resp b).
Qed.

Lemma nullable_interface : nullable value.
Proof. by intros x. Qed.

Lemma nullable_map : nullable (option (gmap string value)).
Proof. by intros x. Qed.

Lemma nullable_slice : nullable (option (list value)).
Proof. by intros x. Qed.

Lemma nullable_ptr {T} `{Unmarshaler T} : nullable (option T).
Proof. by intros x. Qed.

Lemma envelopeOnly_mismatch {X} `{Unmarshaler X} c method endpoint body log resp v :
  urlError (baseURL c +:+ endpoint) = None ->
  Do (httpClient c) log (jsonRequest c method (baseURL c +:+ endpoint) body) = inl resp ->
  Http.StatusCode resp < 400 ->
  Http.Body resp = inl (Doc v) ->
  notObject v = true ->
  envelopeOnly (X:=X) Do urlError c method endpoint body log
  = (Returns (zero, Some (Errorf "failed to unmarshal response"
                            (JsonError UnmarshalTypeError))),
     (log ++ [jsonRequest c method (baseURL c +:+ endpoint) body])%list).
Proof.
  intros U D S B N. unfold envelopeOnly, request, bind, httpClient_Do.
  rewrite U, D. cbn [fst snd]. rewrite B.
  apply Z.leb_gt in S. rewrite S. by destruct v.
Qed.

(** C10, as the code has it.  When the first request of GetBatchResults,
    FindEmail, FindByDomain, FindByCompany, GetCredits, GetUsage or GetLists
    is answered with a status below 400 and a body that is empty, JSON null,
    or a JSON object in which every member selecting the data field is
    null, the operation returns a nil result and a nil error after that one
    request: the body is decoded into the envelope only, and nothing is
    decoded or sent a second time.  When the body is a JSON array, string,
    number or boolean, the operation returns the nil result with the decode
    error of a type mismatch, again after that one request. *)
Theorem envelope_only_without_data c k log resp b :
  envelopeOnlyCall k = true ->
  urlError (baseURL c +:+ path k) = None ->
  Do (httpClient c) log (requestOf Open boundary c k) = inl resp ->
  Http.StatusCode resp < 400 ->
  Http.Body resp = inl b ->
  let after := (log ++ [requestOf Open boundary c k])%list in
  (bare b -> returnsNil Do urlError c k log None after)
  /\ (forall v,
        b = Doc v -> notObject v = true ->
        returnsNil Do urlError c k log
          (Some (Errorf "failed to unmarshal response" (JsonError UnmarshalTypeError)))
          after).
Proof.
  intros E U D S B. cbn zeta. split.
  - intros Bare. destruct k; try done; unfold returnsNil.
    + exact (envelopeOnly_bare c _ _ _ log resp b nullable_interface U D S B Bare).
    + exact (envelopeOnly_bare c _ _ _ log resp b nullable_map U D S B Bare).
    + exact (envelopeOnly_bare c _ _ _ log resp b nullable_map U D S B Bare).
    + exact (envelopeOnly_bare c _ _ _ log resp b nullable_map U D S B Bare).
    + exact (envelopeOnly_bare c _ _ _ log resp b nullable_map U D S B Bare).
    + exact (envelopeOnly_bare c _ _ _ log resp b nullable_map U D S B Bare).
    + exact (envelopeOnly_bare c _ _ _ log resp b nullable_slice U D S B Bare).
  - intros v -> N. destruct k; try done; unfold returnsNil.
    + exact (envelopeOnly_mismatch (X:=value) c _ _ _ log resp v U D S B N).
    + exact (envelopeOnly_mismatch (X:=option (gmap string value)) c _ _ _ log resp v U D S B N).
    + exact (envelopeOnly_mismatch (X:=option (gmap string value)) c _ _ _ log resp v U D S B N).
    + exact (envelopeOnly_mismatch (X:=option (gmap string value)) c _ _ _ log resp v U D S B N).
    + exact (envelopeOnly_mismatch (X:=option (gmap string value)) c _ _ _ log resp v U D S B N).
    + exact (envelopeOnly_mismatch (X:=option (gmap string value)) c _ _ _ log resp v U D S B N).
    + exact (envelopeOnly_mismatch (X:=option (list value)) c _ _ _ log resp v U D S B N).
Qed.

(** **** The upload envelope *)

Lemma findField_upload {X} `{Unmarshaler X} key :
  match findField (uploadEnvelope_fields (X:=X)) key with
  | Some f =>
      (matchesField "success" key = true
       /\ f.2 = fun d e => let '(x, bad) := decode d (Success e) in
                            (UploadEnvelope x (UploadData e), bad))
      \/ (matchesField "data" key = true
          /\ f.2 = fun d e => let '(x, bad) := decode d (UploadData e) in
                               (UploadEnvelope (Success e) x, bad))
  | None => True
  end.
Proof.
  unfold findField, matchesField, uploadEnvelope_fields. cbn [List.find fst snd].
  destruct (String.eqb key "success") eqn:E1, (String.eqb key "data") eqn:E2,
           (String.eqb (foldName key) (foldName "success")) eqn:E3,
           (String.eqb (foldName key) (foldName "data")) eqn:E4;
    cbn [orb fst snd]; try done; first [ by left | by right ].
Qed.

Lemma decode_upload_dataless {X} `{Unmarshaler X} members (e : uploadEnvelope X) :
  dataless members -> successTyped members -> UploadData e = None ->
  exists b, foldl (storeMember uploadEnvelope_fields) (e, false) members
            = (UploadEnvelope b None, false).
Proof.
  intros D. revert e. induction D as [|m members Hm _ IH]; intros e T N.
  - destruct e as [b d]. cbn in N. subst d. by exists b.
  - apply Forall_cons in T as [Tm T]. cbn [foldl].
    unfold storeMember at 2. cbn [fst snd].
    pose proof (findField_upload (X:=X) m.1) as F.
    destruct (findField uploadEnvelope_fields m.1) as [f|]; [| by apply IH ].
    destruct F as [[Ms ->]|[Md ->]].
    + destruct (Tm Ms) as [->|[b' ->]]; cbn; by apply IH.
    + rewrite (Hm Md). cbn. by apply IH.
Qed.

(** C9, as the code has it.  When the upload is answered with a status below 400 and
    a JSON object in which every member selecting the data field is null
    and every member selecting the success field is a boolean or null,
    VerifyBatchFile returns a nil BatchResponse pointer and a nil error
    after its one request: the body is decoded once, into the envelope, and
    nothing is decoded or sent a second time. *)
Theorem upload_without_data c filePath name callbackURL autoStart log content resp members :
  let req := uploadRequest c (baseURL c +:+ "/verify/batch/upload") boundary
               (uploadParts filePath content name callbackURL autoStart) in
  Open filePath = inr (inr content) ->
  urlError (baseURL c +:+ "/verify/batch/upload") = None ->
  Do (httpClient c) log req = inl resp ->
  Http.StatusCode resp < 400 ->
  Http.Body resp = inl (Doc (JObject members)) ->
  dataless members ->
  successTyped members ->
  VerifyBatchFile Do Open urlError boundary c filePath name callbackURL autoStart log
  = (Returns (None, None), (log ++ [req])%list).
Proof.
  cbn zeta. intros O U D S B Dl T. unfold VerifyBatchFile. rewrite O, U.
  unfold bind, httpClient_Do. rewrite D. cbn [fst snd]. rewrite B.
  apply Z.leb_gt in S. rewrite S.
  destruct (decode_upload_dataless (X:=BatchResponse) members
              (UploadEnvelope false None) Dl T eq_refl) as [b Eb].
  change (Unmarshal (Doc (JObject members)) (zero : uploadEnvelope BatchResponse))
    with (let '(v, bad) := foldl (storeMember uploadEnvelope_fields)
                             (UploadEnvelope (X:=BatchResponse) false None, false) members in
          (v, if bad then Some UnmarshalTypeError else None)).
  by rewrite Eb.
Qed.

(** **** Error classification *)

(** X1.  Whenever [request] returns after a response with status 400 or more,
    the error follows the classification table and carries the status and
    the decoded payload. *)
Lemma request_follows_table {R} `{Unmarshaler R} c method endpoint body
    (result : option R) log resp respBody r :
  urlError (baseURL c +:+ endpoint) = None ->
  Do (httpClient c) log (jsonRequest c method (baseURL c +:+ endpoint) body) = inl resp ->
  Http.Body resp = inl respBody ->
  400 <= Http.StatusCode resp ->
  (request (R:=R) Do urlError c method endpoint body result log).1 = Returns r ->
  r.1 = result
  /\ exists e b,
      r.2 = Some e
      /\ variant e = Some (table (Http.StatusCode resp))
      /\ base e = Some b
      /\ StatusCode b = Http.StatusCode resp
      /\ ResponseData b = (Unmarshal respBody (None : option (gmap string value))).1.
Proof.
  intros U D B S. unfold request. rewrite U. unfold bind at 1, httpClient_Do.
  rewrite D. cbn [fst snd]. rewrite B.
  apply Z.leb_le in S. rewrite S. unfold table.
  repeat case_match; try (unfold bind; case_match; case_match);
    cbn; intros [= <-]; (split; [ done | eexists _, _; by repeat split ]).
Qed.

(** The upload never returns a RateLimit error: its status switch has no
    case for 429. *)
Lemma VerifyBatchFile_never_RateLimit c filePath name callbackURL autoStart log r e :
  (VerifyBatchFile Do Open urlError boundary c filePath name callbackURL autoStart log).1
  = Returns (r, Some e) ->
  variant e <> Some RateLimit.
Proof.
  unfold VerifyBatchFile, bind, httpClient_Do, message, assertString, ret, panic.
  repeat case_match; cbn; intros [= <- <-]; simplify_eq; done.
Qed.

(** A payload field that is neither absent, null nor a string makes the
    message lookup panic. *)
Lemma message_panics m key fallback log x :
  m !! key = Some x ->
  x <> JNull ->
  (forall s, x <> JString s) ->
  (message (Some m) key fallback log).1
  = Panics "interface conversion: interface {} is not string".
Proof.
  intros L N S. unfold message. rewrite L.
  destruct x; try done. by destruct (S s).
Qed.

(** **** Request headers *)

Lemma jsonRequest_headers c method url body :
  let h := Http.ReqHeader (jsonRequest c method url body) in
  h !! "Authorization" = Some ["Bearer " +:+ apiKey c]
  /\ h !! "Accept" = Some ["application/json"]
  /\ h !! "User-Agent" = Some ["EmailListChecker-Go/1.0.0"]
  /\ h !! "Content-Type" = Some ["application/json"].
Proof. cbn. unfold Http.Set_. repeat split; by simplify_map_eq. Qed.

Lemma uploadRequest_headers c url parts :
  let h := Http.ReqHeader (uploadRequest c url boundary parts) in
  h !! "Authorization" = Some ["Bearer " +:+ apiKey c]
  /\ h !! "Accept" = None
  /\ h !! "User-Agent" = Some ["EmailListChecker-Go/1.0.0"]
  /\ h !! "Content-Type" = Some ["multipart/form-data; boundary=" +:+ boundary].
Proof. cbn. unfold Http.Set_. repeat split; by simplify_map_eq. Qed.

(** X4.  Every request of every call carries the bearer token and the client
    identifier; the requests of [request] declare and accept JSON; the
    upload request declares its multipart content type and has no Accept
    header. *)
Lemma run_headers c k log :
  Forall (fun req =>
            let h := Http.ReqHeader req in
            h !! "Authorization" = Some ["Bearer " +:+ apiKey c]
            /\ h !! "User-Agent" = Some ["EmailListChecker-Go/1.0.0"]
            /\ match k with
               | CallVerifyBatchFile _ _ _ _ =>
                   h !! "Content-Type" = Some ["multipart/form-data; boundary=" +:+ boundary]
                   /\ h !! "Accept" = None
               | _ =>
                   h !! "Content-Type" = Some ["application/json"]
                   /\ h !! "Accept" = Some ["application/json"]
               end)
         (sent (run Do Open urlError boundary c k) log).
Proof.
  destruct (run_sent c k log) as (n & -> & _). apply Forall_replicate.
  destruct k; cbn [requestOf];
    first [ destruct (uploadRequest_headers c (baseURL c +:+ "/verify/batch/upload")
                        (uploadParts filePath
                           match Open filePath with inr (inr content) => content | _ => "" end
                           name callbackURL autoStart)) as (A & B & C & D); done
          | match goal with
            | |- context [jsonRequest c ?m ?u ?b] =>
                destruct (jsonRequest_headers c m u b) as (A & B & C & D); done
            end ].
Qed.

(** **** The fallback *)

(** After a success response without data, an operation with fallback
    returns whatever a second, fresh request returns: the body already
    fetched plays no part in the result. *)
Lemma withFallback_refetches {T} `{Unmarshaler T} c method endpoint body log resp b :
  urlError (baseURL c +:+ endpoint) = None ->
  Do (httpClient c) log (jsonRequest c method (baseURL c +:+ endpoint) body) = inl resp ->
  Http.StatusCode resp < 400 ->
  Http.Body resp = inl b ->
  bare b ->
  withFallback (T:=T) Do urlError c method endpoint body log
  = (r <- request Do urlError c method endpoint body (Some (zero : T)) ;;
     ret (Some (default zero r.1), r.2))
      (log ++ [jsonRequest c method (baseURL c +:+ endpoint) body])%list.
Proof.
  intros U D S B Bare. unfold withFallback. unfold bind at 1.
  by rewrite (request_bare c method endpoint body log resp b nullable_ptr U D S B Bare).
Qed.

(** **** What a call returns when its first request fails *)

Lemma request_transport_error {R} `{Unmarshaler R} c method endpoint body
    (result : option R) log e :
  urlError (baseURL c +:+ endpoint) = None ->
  Do (httpClient c) log (jsonRequest c method (baseURL c +:+ endpoint) body) = inr e ->
  request Do urlError c method endpoint body result log
  = (Returns (result, Some (Errorf "request failed" (External e))),
     (log ++ [jsonRequest c method (baseURL c +:+ endpoint) body])%list).
Proof. intros U D. unfold request, bind, httpClient_Do. by rewrite U, D. Qed.

Lemma request_read_error {R} `{Unmarshaler R} c method endpoint body
    (result : option R) log resp e :
  urlError (baseURL c +:+ endpoint) = None ->
  Do (httpClient c) log (jsonRequest c method (baseURL c +:+ endpoint) body) = inl resp ->
  Http.Body resp = inr e ->
  request Do urlError c method endpoint body result log
  = (Returns (result, Some (Errorf "failed to read response body" (External e))),
     (log ++ [jsonRequest c method (baseURL c +:+ endpoint) body])%list).
Proof. intros U D B. unfold request, bind, httpClient_Do. rewrite U, D. cbn. by rewrite B. Qed.

Lemma withFallback_error {T} `{Unmarshaler T} c method endpoint body log x err log' :
  request Do urlError c method endpoint body (Some (zero : envelope (option T))) log
  = (Returns (x, Some err), log') ->
  withFallback (T:=T) Do urlError c method endpoint body log
  = (Returns (None, Some err), log').
Proof. intros E. unfold withFallback, bind. by rewrite E. Qed.

Lemma envelopeOnly_error {X} `{Unmarshaler X} c method endpoint body log x err log' :
  request Do urlError c method endpoint body (Some (zero : envelope X)) log
  = (Returns (x, Some err), log') ->
  envelopeOnly (X:=X) Do urlError c method endpoint body log
  = (Returns (zero, Some err), log').
Proof. intros E. unfold envelopeOnly, bind. by rewrite E. Qed.

Lemma errorOf_returns {A} (m : M (A * option error)) log a err log' :
  m log = (Returns (a, err), log') -> errorOf m log = (Returns err, log').
Proof. intros E. unfold errorOf, bind. by rewrite E. Qed.

(** A call that goes through [request] returns the error of its first
    request, whatever result pointer it passes. *)
Lemma run_first_error c k log err log' :
  isUpload k = false ->
  (forall R (U : Unmarshaler R) (result : option R),
     request Do urlError c (method k) (path k) (payload k) result log
     = (Returns (result, Some err), log')) ->
  run Do Open urlError boundary c k log = (Returns (Some err), log').
Proof.
  intros NU E. destruct k; try done; cbn [run];
    try (eapply errorOf_returns;
         first [ exact (withFallback_error c _ _ _ log _ err log' (E _ _ _))
               | exact (envelopeOnly_error c _ _ _ log _ err log' (E _ _ _)) ]).
  unfold DeleteList, bind.
  pose proof (E value _ None) as E'. cbn [method path payload] in E'. by rewrite E'.
Qed.

(** X6.  A call whose URL is rejected returns the wrapped URL error and sends
    nothing. *)
Theorem rejected_url_error c k log e :
  isUpload k = false ->
  urlError (baseURL c +:+ path k) = Some e ->
  run Do Open urlError boundary c k log
  = (Returns (Some (Errorf "failed to create request" (External e))), log).
Proof.
  intros NU U. apply run_first_error; [done|].
  intros R UR result. by apply request_unbuilt.
Qed.

(** X7.  A transport error comes back wrapped, after the one request. *)
Theorem transport_error_wrapped c k log e :
  isUpload k = false ->
  urlError (baseURL c +:+ path k) = None ->
  Do (httpClient c) log (requestOf Open boundary c k) = inr e ->
  run Do Open urlError boundary c k log
  = (Returns (Some (Errorf "request failed" (External e))),
     (log ++ [requestOf Open boundary c k])%list).
Proof.
  intros NU U D.
  assert (R : requestOf Open boundary c k
              = jsonRequest c (method k) (baseURL c +:+ path k) (payload k))
    by (by destruct k).
  rewrite R in *. apply run_first_error; [done|].
  intros R' UR result. by apply request_transport_error.
Qed.

(** X8.  A body that cannot be read comes back as a wrapped read error, whatever
    the status. *)
Theorem read_error_wrapped c k log resp e :
  isUpload k = false ->
  urlError (baseURL c +:+ path k) = None ->
  Do (httpClient c) log (requestOf Open boundary c k) = inl resp ->
  Http.Body resp = inr e ->
  run Do Open urlError boundary c k log
  = (Returns (Some (Errorf "failed to read response body" (External e))),
     (log ++ [requestOf Open boundary c k])%list).
Proof.
  intros NU U D B.
  assert (R : requestOf Open boundary c k
              = jsonRequest c (method k) (baseURL c +:+ path k) (payload k))
    by (by destruct k).
  rewrite R in *. apply run_first_error; [done|].
  intros R' UR result. by apply (request_read_error c _ _ _ result log resp).
Qed.

(** X9.  The upload returns the errors of reading the file, building the request,
    the transport and reading the body as they are, without wrapping; only
    the first two happen before anything is sent. *)
Theorem upload_errors_unwrapped c filePath name callbackURL autoStart log :
  let upload := VerifyBatchFile Do Open urlError boundary c filePath name callbackURL
                  autoStart log in
  let url := baseURL c +:+ "/verify/batch/upload" in
  (forall e, Open filePath = inr (inl e) -> upload = (Returns (None, Some (External e)), log))
  /\ (forall content e,
        Open filePath = inr (inr content) -> urlError url = Some e ->
        upload = (Returns (None, Some (External e)), log))
  /\ (forall content e,
        let req := uploadRequest c url boundary
                     (uploadParts filePath content name callbackURL autoStart) in
        Open filePath = inr (inr content) -> urlError url = None ->
        Do (httpClient c) log req = inr e ->
        upload = (Returns (None, Some (External e)), (log ++ [req])%list))
  /\ (forall content resp e,
        let req := uploadRequest c url boundary
                     (uploadParts filePath content name callbackURL autoStart) in
        Open filePath = inr (inr content) -> urlError url = None ->
        Do (httpClient c) log req = inl resp -> Http.Body resp = inr e ->
        upload = (Returns (None, Some (External e)), (log ++ [req])%list)).
Proof.
  cbn zeta. unfold VerifyBatchFile, bind, httpClient_Do. repeat split.
  - by intros e ->.
  - by intros content e -> ->.
  - by intros content e -> -> ->.
  - intros content resp e -> -> ->. cbn. by intros ->.
Qed.

(** **** Classification on the upload path, and messages *)

(** X2.  Whenever the upload returns after a response with status 400 or more,
    the result is nil and the error follows the switch of the upload: the
    table, except that 429 is Generic. *)
Theorem upload_follows_its_table c filePath name callbackURL autoStart log content resp
    respBody r :
  Open filePath = inr (inr content) ->
  urlError (baseURL c +:+ "/verify/batch/upload") = None ->
  Do (httpClient c) log
     (uploadRequest c (baseURL c +:+ "/verify/batch/upload") boundary
        (uploadParts filePath content name callbackURL autoStart)) = inl resp ->
  Http.Body resp = inl respBody ->
  400 <= Http.StatusCode resp ->
  (VerifyBatchFile Do Open urlError boundary c filePath name callbackURL autoStart log).1
  = Returns r ->
  r.1 = None
  /\ exists e b,
      r.2 = Some e
      /\ variant e = Some (uploadTable (Http.StatusCode resp))
      /\ base e = Some b
      /\ StatusCode b = Http.StatusCode resp
      /\ ResponseData b = (Unmarshal respBody (None : option (gmap string value))).1.
Proof.
  intros O U D B S. unfold VerifyBatchFile. rewrite O, U. unfold bind at 1, httpClient_Do.
  rewrite D. cbn [fst snd]. rewrite B.
  apply Z.leb_le in S. rewrite S. unfold uploadTable, table.
  repeat case_match; try lia; try (unfold bind; case_match; case_match);
    cbn; intros [= <-]; (split; [ done | eexists _, _; by repeat split ]).
Qed.

Lemma message_returns errData key fallback log s :
  (message errData key fallback log).1 = Returns s ->
  s = messageFrom errData key fallback.
Proof.
  unfold message, messageFrom, assertString, ret, panic.
  destruct errData as [m|]; cbn; [| by intros [= <-] ].
  destruct (m !! key) as [[]|]; cbn; by intros [= <-].
Qed.

(** X3.  Whenever [request] returns after a response with a status of 400 or more
    other than 429, the message of the error is the string the payload holds
    under [error] ([message] for 422), and the fixed text of the status when
    the payload is absent or holds nothing or null there. *)
Theorem request_message_source {R} `{Unmarshaler R} c method endpoint body
    (result : option R) log resp respBody r :
  urlError (baseURL c +:+ endpoint) = None ->
  Do (httpClient c) log (jsonRequest c method (baseURL c +:+ endpoint) body) = inl resp ->
  Http.Body resp = inl respBody ->
  400 <= Http.StatusCode resp ->
  Http.StatusCode resp <> 429 ->
  (request (R:=R) Do urlError c method endpoint body result log).1 = Returns r ->
  exists e b,
    r.2 = Some e /\ base e = Some b
    /\ Message b = messageFrom (Unmarshal respBody (None : option (gmap string value))).1
                     (messageKey (Http.StatusCode resp))
                     (fallbackText (Http.StatusCode resp)).
Proof.
  intros U D B S N. unfold request. rewrite U. unfold bind at 1, httpClient_Do.
  rewrite D. cbn [fst snd]. rewrite B.
  apply Z.leb_le in S. rewrite S. unfold messageKey, fallbackText.
  destruct (Http.StatusCode resp =? 401) eqn:E1;
    [| destruct (Http.StatusCode resp =? 402) eqn:E2;
       [| destruct (Http.StatusCode resp =? 422) eqn:E3;
          [| destruct (Http.StatusCode resp =? 429) eqn:E4; [ lia |] ] ] ];
    try (apply Z.eqb_eq in E1; rewrite E1); try (apply Z.eqb_eq in E2; rewrite E2);
    try (apply Z.eqb_eq in E3; rewrite E3); cbn [Z.eqb Pos.eqb];
    unfold bind;
    match goal with
    | |- context [message ?d ?k ?f ?l] =>
        pose proof (message_returns d k f l) as MR;
        destruct (message d k f l) as [[s|?] ?]; cbn in *; intros [= <-];
        rewrite (MR s eq_refl); eexists _, _; by repeat split
    end.
Qed.

(** **** Panics *)

Lemma message_textual b key fallback log :
  textual b -> key = "error" \/ key = "message" ->
  exists s, message (Unmarshal b (None : option (gmap string value))).1 key fallback log
            = (Returns s, log).
Proof.
  unfold textual, message. intros T K.
  destruct (Unmarshal b None).1 as [m|]; [| by eexists ].
  destruct (m !! key) as [x|] eqn:L; [| by eexists ].
  destruct (T key x K L) as [->|[s ->]]; by eexists.
Qed.

Lemma request_returns {R} `{Unmarshaler R} c method endpoint body (result : option R) log :
  (forall resp b,
     Do (httpClient c) log (jsonRequest c method (baseURL c +:+ endpoint) body) = inl resp ->
     Http.Body resp = inl b -> textual b) ->
  exists r, (request Do urlError c method endpoint body result log).1 = Returns r.
Proof.
  intros T. unfold request.
  destruct (urlError _); [ by eexists |].
  unfold bind at 1, httpClient_Do. cbn [fst snd].
  destruct (Do _ _ _) as [resp|e]; [| by eexists ].
  destruct (Http.Body resp) as [b|e] eqn:B; [| by eexists ].
  specialize (T resp b eq_refl B).
  repeat case_match; try (by eexists);
    unfold bind;
    match goal with
    | |- context [message _ ?k ?f ?l] =>
        destruct (message_textual b k f l T) as [s ->]; [ by auto | by eexists ]
    end.
Qed.

Lemma upload_returns c filePath name callbackURL autoStart log :
  (forall req resp b,
     Do (httpClient c) log req = inl resp -> Http.Body resp = inl b -> textual b) ->
  exists r, (VerifyBatchFile Do Open urlError boundary c filePath name callbackURL
               autoStart log).1 = Returns r.
Proof.
  intros T. unfold VerifyBatchFile.
  destruct (Open filePath) as [e|[e|content]]; try by eexists.
  destruct (urlError _); [ by eexists |].
  unfold bind at 1, httpClient_Do. cbn [fst snd].
  destruct (Do _ _ _) as [resp|e] eqn:D; [| by eexists ].
  destruct (Http.Body resp) as [b|e] eqn:B; [| by eexists ].
  specialize (T _ resp b D B).
  repeat case_match; try (by eexists);
    unfold bind;
    match goal with
    | |- context [message _ ?k ?f ?l] =>
        destruct (message_textual b k f l T) as [s ->]; [ by auto | by eexists ]
    end.
Qed.

Lemma bind_returns {A B} (m : M A) (k : A -> M B) log :
  (exists a, (m log).1 = Returns a) ->
  (forall a, exists b, (k a (m log).2).1 = Returns b) ->
  exists b, (bind m k log).1 = Returns b.
Proof.
  intros [a Ea] K. unfold bind. destruct (m log) as [o l]. cbn in *. subst o. apply K.
Qed.

(** X10.  No operation panics as long as every error payload the server sends has
    strings (or null, or nothing) under [error] and [message]: the unchecked
    type assertion is the only way to a panic. *)
Theorem no_panic_on_textual_payloads c k log :
  (forall log' req resp b,
     Do (httpClient c) log' req = inl resp -> Http.Body resp = inl b -> textual b) ->
  exists r, (run Do Open urlError boundary c k log).1 = Returns r.
Proof.
  intros T.
  assert (RQ : forall R (U : Unmarshaler R) method endpoint body (result : option R) l,
             exists r, (request Do urlError c method endpoint body result l).1 = Returns r)
    by (intros; apply request_returns; intros; by eapply T).
  assert (WF : forall T0 (U : Unmarshaler T0) method endpoint body l,
             exists r, (withFallback (T:=T0) Do urlError c method endpoint body l).1
                       = Returns r).
  { intros. unfold withFallback. apply bind_returns; [ apply RQ |].
    intros a. destruct a.2; [ by eexists |]. destruct (Data _); [ by eexists |].
    apply bind_returns; [ apply RQ | by eexists ]. }
  assert (EO : forall X (U : Unmarshaler X) method endpoint body l,
             exists r, (envelopeOnly (X:=X) Do urlError c method endpoint body l).1
                       = Returns r).
  { intros. unfold envelopeOnly. apply bind_returns; [ apply RQ | by eexists ]. }
  assert (EF : forall A (m : M (A * option error)) l,
             (exists r, (m l).1 = Returns r) -> exists r, (errorOf m l).1 = Returns r)
    by (intros; unfold errorOf; apply bind_returns; [ done | by eexists ]).
  destruct k; cbn [run].
  - apply EF. exact (WF _ _ _ _ _ log).
  - apply EF. exact (WF _ _ _ _ _ log).
  - apply EF. apply upload_returns. intros; by eapply T.
  - apply EF. exact (WF _ _ _ _ _ log).
  - apply EF. exact (EO _ _ _ _ _ log).
  - apply EF. exact (EO _ _ _ _ _ log).
  - apply EF. exact (EO _ _ _ _ _ log).
  - apply EF. exact (EO _ _ _ _ _ log).
  - apply EF. exact (EO _ _ _ _ _ log).
  - apply EF. exact (EO _ _ _ _ _ log).
  - apply EF. exact (EO _ _ _ _ _ log).
  - unfold DeleteList. apply bind_returns; [ apply RQ | by eexists ].
Qed.

(** **** Success responses *)

(** X11.  DeleteList never looks at the body: any answer with a status below 400
    is a success. *)
Theorem delete_ignores_body c listID log resp b :
  let req := jsonRequest c "DELETE" (baseURL c +:+ "/lists/" +:+ Strconv.FormatInt listID)
               None in
  urlError (baseURL c +:+ "/lists/" +:+ Strconv.FormatInt listID) = None ->
  Do (httpClient c) log req = inl resp ->
  Http.Body resp = inl b ->
  Http.StatusCode resp < 400 ->
  DeleteList Do urlError c listID log = (Returns None, (log ++ [req])%list).
Proof.
  cbn zeta. intros U D B S. unfold DeleteList, request, bind, httpClient_Do.
  rewrite U, D. cbn [fst snd]. rewrite B. apply Z.leb_gt in S. by rewrite S.
Qed.

(** X12.  A success body that is not JSON is a decode error for every operation
    that passes a result to [request], after one request: the fallback is not
    tried on it. *)
Theorem invalid_body_is_an_error c k log resp :
  decodes k = true ->
  urlError (baseURL c +:+ path k) = None ->
  Do (httpClient c) log (requestOf Open boundary c k) = inl resp ->
  Http.Body resp = inl Invalid ->
  Http.StatusCode resp < 400 ->
  run Do Open urlError boundary c k log
  = (Returns (Some (Errorf "failed to unmarshal response" (JsonError SyntaxError))),
     (log ++ [requestOf Open boundary c k])%list).
Proof.
  intros DK U D B S.
  assert (R : requestOf Open boundary c k
              = jsonRequest c (method k) (baseURL c +:+ path k) (payload k))
    by (by destruct k).
  rewrite R in *.
  assert (RQ : forall X (UX : Unmarshaler X) (x : X),
             request Do urlError c (method k) (path k) (payload k) (Some x) log
             = (Returns (Some x, Some (Errorf "failed to unmarshal response"
                                         (JsonError SyntaxError))),
                (log ++ [jsonRequest c (method k) (baseURL c +:+ path k) (payload k)])%list)).
  { intros. unfold request, bind, httpClient_Do. rewrite U, D. cbn [fst snd]. rewrite B.
    apply Z.leb_gt in S. by rewrite S. }
  destruct k; try done; cbn [run]; eapply errorOf_returns;
    first [ exact (withFallback_error c _ _ _ log _ _ _ (RQ _ _ _))
          | exact (envelopeOnly_error c _ _ _ log _ _ _ (RQ _ _ _)) ].
Qed.

(** X13.  The upload decodes whatever a success response carries: an empty body,
    which [request] takes for a success, is a syntax error here. *)
Theorem upload_empty_body_is_an_error c filePath name callbackURL autoStart log content resp b :
  let req := uploadRequest c (baseURL c +:+ "/verify/batch/upload") boundary
               (uploadParts filePath content name callbackURL autoStart) in
  Open filePath = inr (inr content) ->
  urlError (baseURL c +:+ "/verify/batch/upload") = None ->
  Do (httpClient c) log req = inl resp ->
  Http.Body resp = inl b ->
  b = Empty \/ b = Invalid ->
  Http.StatusCode resp < 400 ->
  VerifyBatchFile Do Open urlError boundary c filePath name callbackURL autoStart log
  = (Returns (None, Some (JsonError SyntaxError)), (log ++ [req])%list).
Proof.
  cbn zeta. intros O U D B E S. unfold VerifyBatchFile, bind, httpClient_Do.
  rewrite O, U, D. cbn [fst snd]. rewrite B. apply Z.leb_gt in S. rewrite S.
  by destruct E as [-> | ->].
Qed.

(** **** Results *)

Lemma decode_enveloped {T} `{Unmarshaler T} v t :
  v <> JNull -> decode v (zero : T) = (t, false) ->
  Unmarshal (Doc (JObject [("data", v)])) (zero : envelope (option T))
  = (Envelope (Some t), None).
Proof.
  intros N D. unfold Unmarshal.
  change (decode (JObject [("data", v)]) (zero : envelope (option T)))
    with (storeMember envelope_fields (Envelope (None : option T), false) ("data", v)).
  unfold storeMember, envelope_fields. rewrite findField_single.
  change (matchesField "data" ("data", v).1) with true. cbn [fst snd Data orb].
  change (decode v (None : option T)) with (decode_ptr v (None : option T)).
  unfold decode_ptr. destruct v; try done; cbn [default]; by rewrite D.
Qed.

Lemma withFallback_enveloped {T} `{Unmarshaler T} c method endpoint body log resp v t :
  urlError (baseURL c +:+ endpoint) = None ->
  Do (httpClient c) log (jsonRequest c method (baseURL c +:+ endpoint) body) = inl resp ->
  Http.StatusCode resp < 400 ->
  Http.Body resp = inl (Doc (JObject [("data", v)])) ->
  v <> JNull -> decode v (zero : T) = (t, false) ->
  withFallback (T:=T) Do urlError c method endpoint body log
  = (Returns (Some t, None),
     (log ++ [jsonRequest c method (baseURL c +:+ endpoint) body])%list).
Proof.
  intros U D S B N Dc. unfold withFallback, request, bind, httpClient_Do.
  rewrite U, D. cbn [fst snd]. rewrite B. apply Z.leb_gt in S. rewrite S.
  cbn [len_is_zero]. by rewrite (decode_enveloped v t N Dc).
Qed.

(** X14.  Answered with a status below 400 and the envelope [{"data": v}], where
    [v] is not null and fits the result struct, Verify, VerifyBatch and
    GetBatchStatus return the struct decoded from [v] and a nil error after
    one request. *)
Theorem enveloped_result c log resp v :
  Http.StatusCode resp < 400 ->
  Http.Body resp = inl (Doc (JObject [("data", v)])) ->
  v <> JNull ->
  (forall email timeout smtpCheck t,
     let k := CallVerify email timeout smtpCheck in
     urlError (baseURL c +:+ path k) = None ->
     Do (httpClient c) log (requestOf Open boundary c k) = inl resp ->
     decode v (zero : VerifyResponse) = (t, false) ->
     Verify Do urlError c email timeout smtpCheck log
     = (Returns (Some t, None), (log ++ [requestOf Open boundary c k])%list))
  /\ (forall emails name callbackURL autoStart t,
        let k := CallVerifyBatch emails name callbackURL autoStart in
        urlError (baseURL c +:+ path k) = None ->
        Do (httpClient c) log (requestOf Open boundary c k) = inl resp ->
        decode v (zero : BatchResponse) = (t, false) ->
        VerifyBatch Do urlError c emails name callbackURL autoStart log
        = (Returns (Some t, None), (log ++ [requestOf Open boundary c k])%list))
  /\ (forall batchID t,
        let k := CallGetBatchStatus batchID in
        urlError (baseURL c +:+ path k) = None ->
        Do (httpClient c) log (requestOf Open boundary c k) = inl resp ->
        decode v (zero : BatchStatusResponse) = (t, false) ->
        GetBatchStatus Do urlError c batchID log
        = (Returns (Some t, None), (log ++ [requestOf Open boundary c k])%list)).
Proof.
  intros S B N. repeat split; intros; cbn zeta in *.
  - exact (withFallback_enveloped c _ _ _ log resp v t H H0 S B N H1).
  - exact (withFallback_enveloped c _ _ _ log resp v t H H0 S B N H1).
  - exact (withFallback_enveloped c _ _ _ log resp v t H H0 S B N H1).
Qed.

Lemma withFallback_some {T} `{Unmarshaler T} c method endpoint body log r :
  (withFallback (T:=T) Do urlError c method endpoint body log).1 = Returns (r, None) ->
  is_Some r.
Proof.
  unfold withFallback, bind.
  destruct (request _ _ _ _ _ _ _ _) as [[a|?] l]; [| done ].
  destruct a.2; [ done |]. destruct (Data _); [ by intros [= <-] |].
  destruct (request _ _ _ _ _ _ _ _) as [[a'|?] l']; [| done ].
  by intros [= <- _].
Qed.

(** X15.  Verify, VerifyBatch and GetBatchStatus never return a nil result with a
    nil error: a caller may use the result as soon as the error is nil. *)
Theorem fallback_result_not_nil c log :
  (forall email timeout smtpCheck r,
     (Verify Do urlError c email timeout smtpCheck log).1 = Returns (r, None) -> is_Some r)
  /\ (forall emails name callbackURL autoStart r,
        (VerifyBatch Do urlError c emails name callbackURL autoStart log).1
        = Returns (r, None) -> is_Some r)
  /\ (forall batchID r,
        (GetBatchStatus Do urlError c batchID log).1 = Returns (r, None) -> is_Some r).
Proof.
  repeat split; intros.
  - exact (withFallback_some c _ _ _ log r H).
  - exact (withFallback_some c _ _ _ log r H).
  - exact (withFallback_some c _ _ _ log r H).
Qed.

Lemma envelopeOnly_nil {X} `{Unmarshaler X} c method endpoint body log x e :
  (envelopeOnly (X:=X) Do urlError c method endpoint body log).1 = Returns (x, Some e) ->
  x = zero.
Proof.
  unfold envelopeOnly, bind, dataOrError.
  destruct (request _ _ _ _ _ _ _ _) as [[a|?] l]; [| done ].
  cbn. destruct a.2; by intros [= <-].
Qed.

(** X16.  The operations that decode the envelope only, and the upload, return a
    nil result whenever they return an error. *)
Theorem error_means_nil_result c log e :
  (forall batchID format filter x,
     (GetBatchResults Do urlError c batchID format filter log).1 = Returns (x, Some e) ->
     x = JNull)
  /\ (forall firstName lastName domain x,
        (FindEmail Do urlError c firstName lastName domain log).1 = Returns (x, Some e) ->
        x = None)
  /\ (forall domain limit offset x,
        (FindByDomain Do urlError c domain limit offset log).1 = Returns (x, Some e) ->
        x = None)
  /\ (forall company limit x,
        (FindByCompany Do urlError c company limit log).1 = Returns (x, Some e) -> x = None)
  /\ (forall x, (GetCredits Do urlError c log).1 = Returns (x, Some e) -> x = None)
  /\ (forall x, (GetUsage Do urlError c log).1 = Returns (x, Some e) -> x = None)
  /\ (forall x, (GetLists Do urlError c log).1 = Returns (x, Some e) -> x = None)
  /\ (forall filePath name callbackURL autoStart x,
        (VerifyBatchFile Do Open urlError boundary c filePath name callbackURL autoStart
           log).1 = Returns (x, Some e) -> x = None).
Proof.
  repeat split; intros;
    try (match goal with
         | E : _ = Returns (_, Some e) |- _ => exact (envelopeOnly_nil c _ _ _ log _ e E)
         end).
  revert H. unfold VerifyBatchFile, bind, httpClient_Do, message, assertString, ret, panic.
  repeat case_match; cbn; by intros [= <-].
Qed.

(** **** The configured base URL *)

Lemma TrimRight_clean s :
  Strings.HasSuffixByte s "/" = false -> Strings.TrimRight s "/" = s.
Proof.
  induction s as [|a s IH]; [done|].
  cbn [Strings.HasSuffixByte Strings.TrimRight]. destruct s as [|b s].
  - cbn. by intros ->.
  - intros E. rewrite (IH E). done.
Qed.

(** X18.  Configuring a client leaves a base URL without a trailing slash as it
    is, stripping is idempotent, and the default client is the client
    configured with the default URL and timeout. *)
Theorem clean_url_is_kept key url timeout :
  Strings.HasSuffixByte url "/" = false ->
  baseURL (NewClientWithConfig key url timeout) = url
  /\ NewClientWithConfig key (baseURL (NewClientWithConfig key url timeout)) timeout
     = NewClientWithConfig key url timeout
  /\ NewClientWithConfig key DefaultBaseURL DefaultTimeout = NewClient key.
Proof.
  intros E. unfold NewClientWithConfig. cbn [baseURL].
  rewrite (TrimRight_clean url E). by rewrite (TrimRight_clean url E).
Qed.

(** **** The requests of a call *)

(** X5.  Every request a call sends is the one request of its row in the interface
    table: its method, its path after the base URL and its JSON body (none
    for GET and DELETE), so a second request is a copy of the first. *)
Theorem call_sends_its_request c k log :
  Forall (fun req =>
            Http.Method req = method k
            /\ Http.URL req = baseURL c +:+ path k
            /\ (isUpload k = false -> Http.ReqBody req = Http.JSONPayload <$> payload k)
            /\ req = requestOf Open boundary c k)
         (sent (run Do Open urlError boundary c k) log).
Proof.
  destruct (run_sent c k log) as (n & -> & _). apply Forall_replicate.
  by destruct k.
Qed.

(** **** The uploaded file name *)

Lemma ContainsByte_append s t c :
  Strings.ContainsByte (s +:+ t) c
  = (Strings.ContainsByte s c || Strings.ContainsByte t c)%bool.
Proof.
  induction s as [|a s IH]; [ by rewrite append_nil_l |].
  rewrite append_cons. cbn [Strings.ContainsByte]. rewrite IH. apply orb_assoc.
Qed.

Lemma lastElement_clean s acc :
  Strings.ContainsByte acc "/" = false ->
  Strings.ContainsByte (Filepath.lastElement s acc) "/" = false.
Proof.
  revert acc. induction s as [|a s IH]; intros acc A; [done|].
  cbn [Filepath.lastElement]. destruct (Ascii.eqb a "/") eqn:E; [ by apply IH |].
  apply IH. rewrite ContainsByte_append, A. cbn [Strings.ContainsByte orb].
  rewrite Ascii.eqb_sym, E. done.
Qed.

Lemma append_nil_r (s : string) : s +:+ "" = s.
Proof. induction s as [|a s IH]; [done|]. by rewrite append_cons, IH. Qed.

Lemma append_snoc (s : string) a t : (s +:+ String a "") +:+ t = s +:+ String a t.
Proof.
  induction s as [|b s IH]; [ by rewrite !append_nil_l, append_cons, append_nil_l |].
  by rewrite !append_cons, IH.
Qed.

Lemma lastElement_plain f acc :
  Strings.ContainsByte f "/" = false -> Filepath.lastElement f acc = acc +:+ f.
Proof.
  revert acc. induction f as [|a f IH]; intros acc F; [ by rewrite append_nil_r |].
  cbn [Strings.ContainsByte] in F. apply orb_false_elim in F as [A F].
  rewrite Ascii.eqb_sym in A. cbn [Filepath.lastElement]. rewrite A.
  by rewrite (IH _ F), append_snoc.
Qed.

Lemma lastElement_after dir f acc :
  Filepath.lastElement (dir +:+ String "/" f) acc = Filepath.lastElement f "".
Proof.
  revert acc. induction dir as [|a dir IH]; intros acc.
  - by rewrite append_nil_l.
  - rewrite append_cons. cbn [Filepath.lastElement]. by destruct (Ascii.eqb a "/").
Qed.

Lemma HasSuffixByte_plain a f :
  Strings.ContainsByte (String a f) "/" = false ->
  Strings.HasSuffixByte (String a f) "/" = false.
Proof.
  revert a. induction f as [|b f IH]; intros a F.
  - cbn [Strings.ContainsByte Strings.HasSuffixByte] in *.
    rewrite orb_false_r in F. by rewrite Ascii.eqb_sym.
  - cbn [Strings.HasSuffixByte]. apply IH.
    cbn [Strings.ContainsByte] in F. by apply orb_false_elim in F as [_ F].
Qed.

Lemma HasSuffixByte_append s a t c :
  Strings.HasSuffixByte (s +:+ String a t) c = Strings.HasSuffixByte (String a t) c.
Proof.
  induction s as [|b s IH]; [ by rewrite append_nil_l |].
  rewrite append_cons. destruct s as [|d s].
  - by rewrite append_nil_l.
  - rewrite append_cons in *. exact IH.
Qed.

Lemma Base_clean a p :
  Strings.HasSuffixByte (String a p) "/" = false ->
  Filepath.Base (String a p) = Filepath.lastElement (String a p) "".
Proof. intros E. unfold Filepath.Base. by rewrite (TrimRight_clean _ E). Qed.

(** [filepath.Base] of a plain file name is the name, and of a directory
    followed by a separator and a plain file name is that name. *)
Lemma Base_file dir a f :
  Strings.ContainsByte (String a f) "/" = false ->
  Filepath.Base (String a f) = String a f
  /\ Filepath.Base (dir +:+ String "/" (String a f)) = String a f.
Proof.
  intros F. split.
  - rewrite Base_clean by by apply HasSuffixByte_plain.
    by rewrite lastElement_plain, append_nil_l.
  - assert (E : Strings.HasSuffixByte (dir +:+ String "/" (String a f)) "/" = false).
    { rewrite HasSuffixByte_append. cbn [Strings.HasSuffixByte].
      by apply HasSuffixByte_plain. }
    destruct (dir +:+ String "/" (String a f)) as [|b q] eqn:Q;
      [ by destruct dir |].
    rewrite Base_clean by done. rewrite <- Q, lastElement_after.
    by rewrite lastElement_plain, append_nil_l.
Qed.

(** X19.  When the file opens and is read and the URL is accepted,
    VerifyBatchFile sends exactly one request, whatever the server answers: a
    POST to the base URL followed by /verify/batch/upload whose multipart
    body holds, in this order, the part named file with the content of the
    file, the field auto_start holding true or false, the field name when a
    name is given and the field callback_url when a callback URL is given,
    and whose Content-Type declares the boundary that delimits that body.
    The file part carries the last element of the path as its file name: the
    path itself when it is a plain name, the name after the last separator
    of a directory path, and in every case a name without a separator or
    the single separator. *)
Theorem upload_sends_the_file c filePath content name callbackURL autoStart log :
  Open filePath = inr (inr content) ->
  urlError (baseURL c +:+ "/verify/batch/upload") = None ->
  exists req fname,
    sent (VerifyBatchFile Do Open urlError boundary c filePath name callbackURL autoStart) log
    = [req]
    /\ Http.Method req = "POST"
    /\ Http.URL req = baseURL c +:+ "/verify/batch/upload"
    /\ Http.ReqBody req
       = Some (Http.MultipartPayload boundary
                 (Http.FormFile "file" fname content
                  :: Http.Field "auto_start" (if autoStart then "true" else "false")
                  :: (match name with Some n => [Http.Field "name" n] | None => [] end
                      ++ match callbackURL with
                         | Some u => [Http.Field "callback_url" u]
                         | None => []
                         end)%list))
    /\ Http.ReqHeader req !! "Content-Type"
       = Some ["multipart/form-data; boundary=" +:+ boundary]
    /\ (fname = "/" \/ Strings.ContainsByte fname "/" = false)
    /\ (forall a f, filePath = String a f ->
                    Strings.ContainsByte filePath "/" = false -> fname = filePath)
    /\ (forall dir a f, filePath = dir +:+ String "/" (String a f) ->
                        Strings.ContainsByte (String a f) "/" = false ->
                        fname = String a f).
Proof.
  intros O U.
  exists (uploadRequest c (baseURL c +:+ "/verify/batch/upload") boundary
            (uploadParts filePath content name callbackURL autoStart)),
         (Filepath.Base filePath).
  split.
  { apply sent_app. by rewrite VerifyBatchFile_log, O, U. }
  split; [ reflexivity |]. split; [ reflexivity |]. split; [ reflexivity |].
  split.
  { cbn [uploadRequest Http.ReqHeader]. unfold Http.Set_. by simplify_map_eq. }
  split.
  { unfold Filepath.Base. destruct filePath as [|a p]; [ by right |].
    destruct (Strings.TrimRight (String a p) "/"); [ by left |].
    right. by apply lastElement_clean. }
  split.
  - intros a f -> F. exact (proj1 (Base_file "" a f F)).
  - intros dir a f -> F. exact (proj2 (Base_file dir a f F)).
Qed.

(** **** The second request *)

(** C2, where the code departs from it.  Verify, VerifyBatch and
    GetBatchStatus do not make one round trip when the first is answered with
    a status below 400 and a body without data (no bytes, JSON null, or an
    object without a usable data member): the call then sends its request a
    second time, whatever comes back, so it makes exactly two round trips with
    the same request. *)
Theorem fallback_sends_twice c k log resp b :
  hasFallback k = true ->
  urlError (baseURL c +:+ path k) = None ->
  Do (httpClient c) log (requestOf Open boundary c k) = inl resp ->
  Http.StatusCode resp < 400 ->
  Http.Body resp = inl b ->
  bare b ->
  sent (run Do Open urlError boundary c k) log
  = [requestOf Open boundary c k; requestOf Open boundary c k].
Proof.
  intros F U D S B Bare.
  assert (R : requestOf Open boundary c k
              = jsonRequest c (method k) (baseURL c +:+ path k) (payload k))
    by (by destruct k).
  rewrite R in *.
  assert (W : forall T (UT : Unmarshaler T),
             (withFallback (T:=T) Do urlError c (method k) (path k) (payload k) log).2
             = (log ++ [jsonRequest c (method k) (baseURL c +:+ path k) (payload k);
                        jsonRequest c (method k) (baseURL c +:+ path k) (payload k)])%list).
  { intros T UT. rewrite (withFallback_refetches c _ _ _ log resp b U D S B Bare).
    rewrite bind_log, request_log. unfold built. rewrite U. rewrite <- app_assoc.
    by case_match. }
  apply sent_app. destruct k; try done; cbn [run]; rewrite errorOf_log.
  - exact (W VerifyResponse _).
  - exact (W BatchResponse _).
  - exact (W BatchStatusResponse _).
Qed.

End Properties.

(* ===================================================================== *)
(** ** The operations in the reference environment *)
(* ===================================================================== *)

(** C1, where the code departs from it.  Answered with status 429, the upload returns a Generic
    error where the classification table names RateLimit, and where
    VerifyBatch, answered with the same response, returns a RateLimit
    error. *)
Theorem upload_429_is_generic :
  (VerifyBatchFile (Sample.scripted [Sample.tooMany]) Sample.files Sample.anyURL
     Sample.boundary Sample.client "emails.csv" None None true []).1
  = Returns (None, Some (APIError {| Message := "slow down"; StatusCode := 429;
                                      ResponseData := Some {[ "error" := JString "slow down" ]} |}))
  /\ table 429 = RateLimit
  /\ (VerifyBatch (Sample.scripted [Sample.tooMany]) Sample.anyURL Sample.client
        (Some ["a@b.com"]) "" "" true []).1
     = Returns (None, Some (RateLimitError
                              {| Message := "Rate limit exceeded. Retry after 30 seconds";
                                 StatusCode := 429;
                                 ResponseData := Some {[ "error" := JString "slow down" ]} |}
                              30)).
Proof. repeat split; vm_compute; reflexivity. Qed.

Lemma round_trips_per_call_witness :
  sent (run (Sample.scripted []) Sample.files Sample.anyURL Sample.boundary Sample.client
          (CallVerifyBatchFile Sample.missing None None true)) [] = []
  /\ (1 <= length (sent (run (Sample.scripted [Sample.bareCredits]) Sample.files
                           Sample.anyURL Sample.boundary Sample.client CallGetCredits) [])
       <= 2)%nat
  /\ (length (sent (run (Sample.scripted [Sample.bareCredits]) Sample.files
                      Sample.anyURL Sample.boundary Sample.client CallGetCredits) []) <= 1)%nat
  /\ (length (sent (run (Sample.scripted [Sample.tooMany]) Sample.files
                      Sample.anyURL Sample.boundary Sample.client
                      (CallVerify "a@b.com" None true)) []) <= 1)%nat.
Proof.
  split; [| split; [| split ]].
  - exact (proj1 (round_trips_per_call (Sample.scripted []) Sample.files Sample.anyURL
                    Sample.boundary Sample.client
                    (CallVerifyBatchFile Sample.missing None None true) []) eq_refl).
  - exact (proj1 (proj2 (round_trips_per_call (Sample.scripted [Sample.bareCredits])
                           Sample.files Sample.anyURL Sample.boundary Sample.client
                           CallGetCredits [])) eq_refl).
  - exact (proj1 (proj2 (proj2 (round_trips_per_call (Sample.scripted [Sample.bareCredits])
                                  Sample.files Sample.anyURL Sample.boundary Sample.client
                                  CallGetCredits []))) eq_refl).
  - exact (proj2 (proj2 (proj2 (round_trips_per_call (Sample.scripted [Sample.tooMany])
                                  Sample.files Sample.anyURL Sample.boundary Sample.client
                                  (CallVerify "a@b.com" None true) []))) eq_refl).
Defined.

(** C3, where the code departs from it.  Verify is answered with the bare object
    [{"email":"a@b.com","result":"deliverable"}] and status 200.  The body
    decodes into a VerifyResponse with that email and result, but Verify does
    not decode it: it sends its request again, and returns what the second
    answer gives, here the RateLimit error of a 429 next to an empty
    VerifyResponse. *)
Theorem verify_fallback_refetches :
  (Unmarshal (Doc Sample.bareVerify) (zero : VerifyResponse))
  = ({| VerifyResponse_Email := "a@b.com"; VerifyResponse_Result := "deliverable";
        VerifyResponse_Reason := ""; VerifyResponse_Disposable := false;
        VerifyResponse_Role := false; VerifyResponse_Free := false;
        VerifyResponse_Score := "0"; VerifyResponse_SMTPProvider := "";
        VerifyResponse_MXRecords := None; VerifyResponse_Domain := "";
        VerifyResponse_SpamTrap := false; VerifyResponse_MXFound := false |}, None)
  /\ (Verify (Sample.scripted [Sample.response 200 [] (Doc Sample.bareVerify); Sample.tooMany])
        Sample.anyURL Sample.client "a@b.com" None true []).1
     = Returns (Some zero,
                Some (RateLimitError
                        {| Message := "Rate limit exceeded. Retry after 30 seconds";
                           StatusCode := 429;
                           ResponseData := Some {[ "error" := JString "slow down" ]} |}
                        30))
  /\ sent (Verify (Sample.scripted [Sample.response 200 [] (Doc Sample.bareVerify);
                                    Sample.tooMany])
             Sample.anyURL Sample.client "a@b.com" None true) []
     = let req := jsonRequest Sample.client "POST" "https://x.io/api/verify"
                    (Some (JObject [("email", JString "a@b.com"); ("smtp_check", JBool true)])) in
       [req; req].
Proof. repeat split; vm_compute; reflexivity. Qed.

(** C4, where the code departs from it.  The one request VerifyBatchFile sends has the bearer
    token, the client identifier and the multipart content type, and no
    Accept header; the request GetCredits sends has Accept: application/json. *)
Theorem upload_request_has_no_accept :
  (exists req,
     sent (VerifyBatchFile (Sample.scripted [Sample.accepted]) Sample.files Sample.anyURL
             Sample.boundary Sample.client "emails.csv" None None true) [] = [req]
     /\ Http.ReqHeader req !! "Accept" = None
     /\ Http.ReqHeader req !! "Authorization" = Some ["Bearer key"]
     /\ Http.ReqHeader req !! "User-Agent" = Some ["EmailListChecker-Go/1.0.0"]
     /\ Http.ReqHeader req !! "Content-Type"
        = Some ["multipart/form-data; boundary=" +:+ Sample.boundary])
  /\ (exists req,
        sent (GetCredits (Sample.scripted [Sample.bareCredits]) Sample.anyURL Sample.client) []
        = [req]
        /\ Http.ReqHeader req !! "Accept" = Some ["application/json"]).
Proof. split; eexists; repeat split; vm_compute; reflexivity. Qed.

(** C5, where the code departs from it.  An error body whose error field is a number, or whose
    message field is an object, makes the operation panic instead of
    returning an error, on the JSON path and on the upload path alike; a body
    that is not JSON gives an error with an absent payload. *)
Theorem non_string_error_field_panics :
  (GetCredits (Sample.scripted [Sample.numericError]) Sample.anyURL Sample.client []).1
  = Panics "interface conversion: interface {} is not string"
  /\ (Verify (Sample.scripted [Sample.structuredMessage]) Sample.anyURL Sample.client
        "a@b.com" None true []).1
     = Panics "interface conversion: interface {} is not string"
  /\ (VerifyBatchFile (Sample.scripted [Sample.numericError]) Sample.files Sample.anyURL
        Sample.boundary Sample.client "emails.csv" None None true []).1
     = Panics "interface conversion: interface {} is not string"
  /\ (GetCredits (Sample.scripted [Sample.gatewayPage]) Sample.anyURL Sample.client []).1
     = Returns (None, Some (APIError {| Message := "API error: 500"; StatusCode := 500;
                                         ResponseData := None |})).
Proof. repeat split; vm_compute; reflexivity. Qed.

Lemma rate_limit_retry_after_witness :
  (request (R:=envelope (option (gmap string value))) (Sample.scripted [Sample.tooMany])
     Sample.anyURL Sample.client "GET" "/credits" None (Some zero) []).1
  = Returns (Some zero,
             Some (RateLimitError
                     {| Message := "Rate limit exceeded. Retry after 30 seconds";
                        StatusCode := 429;
                        ResponseData := Some {[ "error" := JString "slow down" ]} |}
                     30)).
Proof.
  exact (proj1 (rate_limit_retry_after (Sample.scripted [Sample.tooMany]) Sample.anyURL
                  Sample.client "GET" "/credits" None (Some zero) [] Sample.tooMany
                  (Doc Sample.slowDown) eq_refl eq_refl eq_refl eq_refl)).
Defined.

Lemma upload_open_failure_witness :
  VerifyBatchFile (Sample.scripted []) Sample.files Sample.anyURL Sample.boundary
    Sample.client Sample.missing None None true []
  = (Returns (None, Some (Errorf "failed to open file"
                            (External "open missing.csv: no such file or directory"))), []).
Proof.
  exact (upload_open_failure (Sample.scripted []) Sample.files Sample.anyURL Sample.boundary
           Sample.client Sample.missing None None true []
           "open missing.csv: no such file or directory" eq_refl).
Defined.

(** C9, counterexample.  The upload is answered with status 200 and the body
    [{"success":"yes"}], a JSON object without a data member; VerifyBatchFile
    returns a nil pointer with a decode error, not a nil error. *)
Lemma upload_without_data_may_fail :
  dataless [("success", JString "yes")]
  /\ (VerifyBatchFile (Sample.scripted [Sample.acceptedAsText]) Sample.files Sample.anyURL
        Sample.boundary Sample.client "emails.csv" None None true []).1
     = Returns (None, Some (JsonError UnmarshalTypeError)).
Proof.
  split; [| vm_compute; reflexivity ].
  unfold dataless. constructor; [ cbn; discriminate | constructor ].
Qed.

Lemma upload_without_data_witness :
  VerifyBatchFile (Sample.scripted [Sample.accepted]) Sample.files Sample.anyURL
    Sample.boundary Sample.client "emails.csv" None None true []
  = (Returns (None, None),
     [uploadRequest Sample.client "https://x.io/api/verify/batch/upload" Sample.boundary
        (uploadParts "emails.csv" "a@b.com" None None true)]).
Proof.
  refine (upload_without_data (Sample.scripted [Sample.accepted]) Sample.files Sample.anyURL
            Sample.boundary Sample.client "emails.csv" None None true [] "a@b.com"
            Sample.accepted [("success", JBool true)]
            eq_refl eq_refl eq_refl eq_refl eq_refl _ _).
  - unfold dataless. constructor; [ cbn; discriminate | constructor ].
  - unfold successTyped. constructor; [ intros _; right; by exists true | constructor ].
Defined.

(** C10, counterexample.  GetLists is answered with status 200 and the bare
    array [[]], a body without a data envelope; it returns a nil slice with a
    decode error, not a nil error. *)
Lemma bare_list_is_an_error :
  (GetLists (Sample.scripted [Sample.bareList]) Sample.anyURL Sample.client []).1
  = Returns (None, Some (Errorf "failed to unmarshal response"
                           (JsonError UnmarshalTypeError))).
Proof. vm_compute; reflexivity. Qed.

Lemma envelope_only_without_data_witness :
  GetCredits (Sample.scripted [Sample.bareCredits]) Sample.anyURL Sample.client []
  = (Returns (None, None), [jsonRequest Sample.client "GET" "https://x.io/api/credits" None])
  /\ GetLists (Sample.scripted [Sample.bareList]) Sample.anyURL Sample.client []
     = (Returns (None, Some (Errorf "failed to unmarshal response"
                               (JsonError UnmarshalTypeError))),
        [jsonRequest Sample.client "GET" "https://x.io/api/lists" None]).
Proof.
  split.
  - refine (proj1 (envelope_only_without_data (Sample.scripted [Sample.bareCredits])
                     Sample.files Sample.anyURL Sample.boundary Sample.client CallGetCredits
                     [] Sample.bareCredits (Doc (JObject [("credits", JNumber "5")]))
                     eq_refl eq_refl eq_refl eq_refl eq_refl) _).
    apply bare_object. unfold dataless. constructor; [ cbn; discriminate | constructor ].
  - exact (proj2 (envelope_only_without_data (Sample.scripted [Sample.bareList])
                    Sample.files Sample.anyURL Sample.boundary Sample.client CallGetLists
                    [] Sample.bareList (Doc (JArray []))
                    eq_refl eq_refl eq_refl eq_refl eq_refl) (JArray []) eq_refl eq_refl).
Defined.

(* ===================================================================== *)
(** ** The further properties in the reference environment *)
(* ===================================================================== *)

Lemma request_follows_table_witness :
  let r := (Some JNull, Some (APIError {| Message := "API error: 500"; StatusCode := 500;
                                          ResponseData := None |})) in
  r.1 = Some JNull
  /\ exists e b,
      r.2 = Some e
      /\ variant e = Some (table (Http.StatusCode Sample.gatewayPage))
      /\ base e = Some b
      /\ StatusCode b = Http.StatusCode Sample.gatewayPage
      /\ ResponseData b = (Unmarshal Invalid (None : option (gmap string value))).1.
Proof.
  cbn zeta.
  apply (request_follows_table (R:=value) (Sample.scripted [Sample.gatewayPage]) Sample.anyURL
           Sample.client "GET" "/credits" None (Some JNull) [] Sample.gatewayPage Invalid);
    [ reflexivity | reflexivity | reflexivity | cbn; lia | reflexivity ].
Defined.

Lemma upload_follows_its_table_witness :
  let r := (None : option BatchResponse,
            Some (APIError {| Message := "slow down"; StatusCode := 429;
                              ResponseData := Some {[ "error" := JString "slow down" ]} |})) in
  r.1 = None
  /\ exists e b,
      r.2 = Some e
      /\ variant e = Some (uploadTable (Http.StatusCode Sample.tooMany))
      /\ base e = Some b
      /\ StatusCode b = Http.StatusCode Sample.tooMany
      /\ ResponseData b
         = (Unmarshal (Doc Sample.slowDown) (None : option (gmap string value))).1.
Proof.
  cbn zeta.
  apply (upload_follows_its_table (Sample.scripted [Sample.tooMany]) Sample.files
           Sample.anyURL Sample.boundary Sample.client "emails.csv" None None true []
           "a@b.com" Sample.tooMany (Doc Sample.slowDown));
    [ reflexivity | reflexivity | reflexivity | reflexivity | cbn; lia
    | vm_compute; reflexivity ].
Defined.

Lemma request_message_source_witness :
  exists e b,
    Some (AuthenticationError {| Message := "bad key"; StatusCode := 401;
                                 ResponseData := Some {[ "error" := JString "bad key" ]} |})
    = Some e
    /\ base e = Some b
    /\ Message b
       = messageFrom (Unmarshal (Doc (JObject [("error", JString "bad key")]))
                        (None : option (gmap string value))).1
           (messageKey (Http.StatusCode Sample.badKey))
           (fallbackText (Http.StatusCode Sample.badKey)).
Proof.
  apply (request_message_source (R:=value) (Sample.scripted [Sample.badKey]) Sample.anyURL
           Sample.client "GET" "/credits" None (Some JNull) [] Sample.badKey
           (Doc (JObject [("error", JString "bad key")]))
           (Some JNull, Some (AuthenticationError
                                {| Message := "bad key"; StatusCode := 401;
                                   ResponseData := Some {[ "error" := JString "bad key" ]} |})));
    [ reflexivity | reflexivity | reflexivity | cbn; lia | cbn; lia
    | vm_compute; reflexivity ].
Defined.

Lemma rejected_url_error_witness :
  run (Sample.scripted []) Sample.files Sample.noURL Sample.boundary Sample.client
    CallGetCredits []
  = (Returns (Some (Errorf "failed to create request" (External "missing protocol scheme"))),
     []).
Proof.
  exact (rejected_url_error (Sample.scripted []) Sample.files Sample.noURL Sample.boundary
           Sample.client CallGetCredits [] "missing protocol scheme" eq_refl eq_refl).
Defined.

Lemma transport_error_wrapped_witness :
  run (Sample.scripted []) Sample.files Sample.anyURL Sample.boundary Sample.client
    (CallDeleteList 3) []
  = (Returns (Some (Errorf "request failed" (External "dial tcp: connection refused"))),
     [jsonRequest Sample.client "DELETE" "https://x.io/api/lists/3" None]).
Proof.
  exact (transport_error_wrapped (Sample.scripted []) Sample.files Sample.anyURL
           Sample.boundary Sample.client (CallDeleteList 3) [] "dial tcp: connection refused"
           eq_refl eq_refl eq_refl).
Defined.

Lemma read_error_wrapped_witness :
  run (Sample.scripted [Sample.truncated]) Sample.files Sample.anyURL Sample.boundary
    Sample.client CallGetUsage []
  = (Returns (Some (Errorf "failed to read response body" (External "unexpected EOF"))),
     [jsonRequest Sample.client "GET" "https://x.io/api/usage" None]).
Proof.
  exact (read_error_wrapped (Sample.scripted [Sample.truncated]) Sample.files Sample.anyURL
           Sample.boundary Sample.client CallGetUsage [] Sample.truncated "unexpected EOF"
           eq_refl eq_refl eq_refl eq_refl).
Defined.

Lemma upload_errors_unwrapped_witness :
  VerifyBatchFile (Sample.scripted []) Sample.directories Sample.anyURL Sample.boundary
    Sample.client "emails" None None true []
  = (Returns (None, Some (External "read emails: is a directory")), [])
  /\ VerifyBatchFile (Sample.scripted []) Sample.files Sample.noURL Sample.boundary
       Sample.client "emails.csv" None None true []
     = (Returns (None, Some (External "missing protocol scheme")), [])
  /\ VerifyBatchFile (Sample.scripted []) Sample.files Sample.anyURL Sample.boundary
       Sample.client "emails.csv" None None true []
     = (Returns (None, Some (External "dial tcp: connection refused")),
        [uploadRequest Sample.client "https://x.io/api/verify/batch/upload" Sample.boundary
           (uploadParts "emails.csv" "a@b.com" None None true)])
  /\ VerifyBatchFile (Sample.scripted [Sample.truncated]) Sample.files Sample.anyURL
       Sample.boundary Sample.client "emails.csv" None None true []
     = (Returns (None, Some (External "unexpected EOF")),
        [uploadRequest Sample.client "https://x.io/api/verify/batch/upload" Sample.boundary
           (uploadParts "emails.csv" "a@b.com" None None true)]).
Proof.
  split; [| split; [| split ]].
  - exact (proj1 (upload_errors_unwrapped (Sample.scripted []) Sample.directories
                    Sample.anyURL Sample.boundary Sample.client "emails" None None true [])
             "read emails: is a directory" eq_refl).
  - exact (proj1 (proj2 (upload_errors_unwrapped (Sample.scripted []) Sample.files
                           Sample.noURL Sample.boundary Sample.client "emails.csv" None None
                           true []))
             "a@b.com" "missing protocol scheme" eq_refl eq_refl).
  - exact (proj1 (proj2 (proj2 (upload_errors_unwrapped (Sample.scripted []) Sample.files
                                  Sample.anyURL Sample.boundary Sample.client "emails.csv"
                                  None None true [])))
             "a@b.com" "dial tcp: connection refused" eq_refl eq_refl eq_refl).
  - exact (proj2 (proj2 (proj2 (upload_errors_unwrapped (Sample.scripted [Sample.truncated])
                                  Sample.files Sample.anyURL Sample.boundary Sample.client
                                  "emails.csv" None None true [])))
             "a@b.com" Sample.truncated "unexpected EOF" eq_refl eq_refl eq_refl eq_refl).
Defined.

Lemma no_panic_on_textual_payloads_witness :
  exists r, (run (Sample.constant Sample.badKey) Sample.files Sample.anyURL Sample.boundary
               Sample.client (CallVerify "a@b.com" None true) []).1 = Returns r.
Proof.
  apply (no_panic_on_textual_payloads (Sample.constant Sample.badKey) Sample.files
           Sample.anyURL Sample.boundary Sample.client (CallVerify "a@b.com" None true) []).
  intros log' req resp b [= <-] [= <-].
  intros key x [-> | ->] L; vm_compute in L.
  - injection L as <-. right. by eexists.
  - discriminate L.
Defined.

Lemma delete_ignores_body_witness :
  DeleteList (Sample.scripted [Sample.page]) Sample.anyURL Sample.client 3 []
  = (Returns None, [jsonRequest Sample.client "DELETE" "https://x.io/api/lists/3" None]).
Proof.
  apply (delete_ignores_body (Sample.scripted [Sample.page]) Sample.anyURL Sample.client 3 []
           Sample.page Invalid); reflexivity.
Defined.

Lemma invalid_body_is_an_error_witness :
  run (Sample.scripted [Sample.page]) Sample.files Sample.anyURL Sample.boundary
    Sample.client (CallGetBatchStatus 5) []
  = (Returns (Some (Errorf "failed to unmarshal response" (JsonError SyntaxError))),
     [jsonRequest Sample.client "GET" "https://x.io/api/verify/batch/5" None]).
Proof.
  apply (invalid_body_is_an_error (Sample.scripted [Sample.page]) Sample.files Sample.anyURL
           Sample.boundary Sample.client (CallGetBatchStatus 5) [] Sample.page); reflexivity.
Defined.

Lemma upload_empty_body_is_an_error_witness :
  VerifyBatchFile (Sample.scripted [Sample.noContent]) Sample.files Sample.anyURL
    Sample.boundary Sample.client "emails.csv" None None true []
  = (Returns (None, Some (JsonError SyntaxError)),
     [uploadRequest Sample.client "https://x.io/api/verify/batch/upload" Sample.boundary
        (uploadParts "emails.csv" "a@b.com" None None true)]).
Proof.
  apply (upload_empty_body_is_an_error (Sample.scripted [Sample.noContent]) Sample.files
           Sample.anyURL Sample.boundary Sample.client "emails.csv" None None true []
           "a@b.com" Sample.noContent Empty);
    [ reflexivity | reflexivity | reflexivity | reflexivity | by left | reflexivity ].
Defined.

(** A score outside the [float64] range does not fit the result struct:
    Verify returns the decode error, and the data is not used. *)
Example score_out_of_range_does_not_fit :
  (Verify (Sample.scripted
             [Sample.response 200 []
                (Doc (JObject [("data", JObject [("email", JString "a@b.com");
                                                 ("score", JNumber "1e400")])]))])
     Sample.anyURL Sample.client "a@b.com" None true []).1
  = Returns (None, Some (Errorf "failed to unmarshal response"
                           (JsonError UnmarshalTypeError))).
Proof. vm_compute. reflexivity. Qed.

(** A repeated array member is stored into the slice the first one left: a
    null element keeps what its slot held. *)
Example repeated_array_reuses_slots :
  let '(r, bad) :=
    decode (JObject [("mx_records", JArray [JString "a"; JString "b"]);
                     ("mx_records", JArray [JNull; JString "c"])])
           (zero : VerifyResponse) in
  (elements <$> VerifyResponse_MXRecords r, bad) = (Some ["a"; "c"], false).
Proof. vm_compute. reflexivity. Qed.

Lemma enveloped_result_witness :
  GetBatchStatus (Sample.scripted [Sample.enveloped]) Sample.anyURL Sample.client 5 []
  = (Returns (Some {| BatchStatusResponse_ID := 5;
                      BatchStatusResponse_Status := "completed";
                      BatchStatusResponse_Progress := 100;
                      BatchStatusResponse_TotalEmails := 0;
                      BatchStatusResponse_ProcessedEmails := 0;
                      BatchStatusResponse_ValidEmails := 0;
                      BatchStatusResponse_InvalidEmails := 0;
                      BatchStatusResponse_UnknownEmails := 0 |}, None),
     [jsonRequest Sample.client "GET" "https://x.io/api/verify/batch/5" None]).
Proof.
  refine (proj2 (proj2 (enveloped_result (Sample.scripted [Sample.enveloped]) Sample.files
                          Sample.anyURL Sample.boundary Sample.client [] Sample.enveloped
                          Sample.snapshot eq_refl eq_refl _))
            5 _ eq_refl eq_refl eq_refl).
  discriminate.
Defined.

Lemma fallback_result_not_nil_witness :
  is_Some (Some {| BatchStatusResponse_ID := 5;
                   BatchStatusResponse_Status := "completed";
                   BatchStatusResponse_Progress := 100;
                   BatchStatusResponse_TotalEmails := 0;
                   BatchStatusResponse_ProcessedEmails := 0;
                   BatchStatusResponse_ValidEmails := 0;
                   BatchStatusResponse_InvalidEmails := 0;
                   BatchStatusResponse_UnknownEmails := 0 |}).
Proof.
  apply (proj2 (proj2 (fallback_result_not_nil (Sample.scripted [Sample.enveloped])
                         Sample.anyURL Sample.client [])) 5).
  vm_compute. reflexivity.
Defined.

Lemma error_means_nil_result_witness :
  (None : option (gmap string value)) = None.
Proof.
  apply (proj1 (proj2 (proj2 (proj2 (proj2
           (error_means_nil_result (Sample.scripted [Sample.gatewayPage]) Sample.files
              Sample.anyURL Sample.boundary Sample.client []
              (APIError {| Message := "API error: 500"; StatusCode := 500;
                           ResponseData := None |}))))))).
  vm_compute. reflexivity.
Defined.

Lemma clean_url_is_kept_witness :
  baseURL (NewClientWithConfig "key" "https://x.io/api" DefaultTimeout) = "https://x.io/api".
Proof.
  exact (proj1 (clean_url_is_kept "key" "https://x.io/api" DefaultTimeout eq_refl)).
Defined.

Lemma upload_sends_the_file_witness :
  exists req fname,
    sent (VerifyBatchFile (Sample.scripted [Sample.accepted]) Sample.folder Sample.anyURL
            Sample.boundary Sample.client "lists/march.csv" (Some "March") None true) []
    = [req]
    /\ Http.ReqBody req
       = Some (Http.MultipartPayload Sample.boundary
                 [Http.FormFile "file" fname "a@b.com";
                  Http.Field "auto_start" "true"; Http.Field "name" "March"])
    /\ fname = "march.csv".
Proof.
  destruct (upload_sends_the_file (Sample.scripted [Sample.accepted]) Sample.folder
              Sample.anyURL Sample.boundary Sample.client "lists/march.csv" "a@b.com"
              (Some "March") None true [] eq_refl eq_refl)
    as (req & fname & S & _ & _ & B & _ & _ & _ & N).
  exists req, fname. split; [ exact S |]. split; [ exact B |].
  exact (N "lists" "m"%char "arch.csv" eq_refl eq_refl).
Defined.

Lemma fallback_sends_twice_witness :
  sent (run (Sample.scripted [Sample.response 200 [] (Doc Sample.bareBatch);
                              Sample.response 200 [] (Doc Sample.bareBatch)])
          Sample.files Sample.anyURL Sample.boundary Sample.client
          (CallVerifyBatch (Some ["a@b.com"]) "" "" true)) []
  = let req := jsonRequest Sample.client "POST" "https://x.io/api/verify/batch"
                 (Some (JObject [("emails", JArray [JString "a@b.com"]);
                                 ("auto_start", JBool true)])) in
    [req; req].
Proof.
  refine (fallback_sends_twice
            (Sample.scripted [Sample.response 200 [] (Doc Sample.bareBatch);
                              Sample.response 200 [] (Doc Sample.bareBatch)])
            Sample.files Sample.anyURL Sample.boundary Sample.client
            (CallVerifyBatch (Some ["a@b.com"]) "" "" true) []
            (Sample.response 200 [] (Doc Sample.bareBatch)) (Doc Sample.bareBatch)
            eq_refl eq_refl eq_refl eq_refl eq_refl _).
  apply bare_object. unfold dataless, Sample.bareBatch.
  constructor; [ cbn; discriminate |]. constructor; [ cbn; discriminate | constructor ].
Defined.
